(** * tabliblib: the per-record filtering pipeline and its dispatcher

    A shallow embedding of [src/tabliblib/dataframe_utils.py]:
    [write_dataframe_to_file] (the per-record pipeline and the output step)
    and [DataFrameFileDataSink] (the dispatcher that runs it once per
    record and contains failures).

    Python state (the file system, the log, the random sources) is threaded
    explicitly as a [World]; a Python exception or an early [return] is an
    [outcome].  pandas tables are row-major values. *)

From Stdlib Require Import QArith_base.
From stdpp Require Import base gmap strings list pretty.

(** ** Exceptions *)

Inductive exn_class :=
  | KeyError
  | ArrowInvalid
  | ArrowNotImplementedError
  | ValueError
  | TypeError
  | AttributeError.

(** [exn_msg] is what [str(e)] gives in a log line. *)
Record exn := mkExn { exn_cls : exn_class; exn_msg : string }.

Global Instance exn_class_eq_dec : EqDecision exn_class.
Proof. solve_decision. Defined.
Global Instance exn_eq_dec : EqDecision exn.
Proof. solve_decision. Defined.

(** [KeyError(key)]: [str()] of a [KeyError] is the [repr] of its
    argument, which for the keys read here is the key between single
    quotes. *)
Definition key_error (key : string) : exn := mkExn KeyError ("'" +:+ key +:+ "'").

(** A fallible pure computation: [inl e] raises [e]. *)
Definition result (A : Type) : Type := exn + A.

Definition rbind {A B} (m : result A) (k : A → result B) : result B :=
  match m with inl e => inl e | inr a => k a end.

Fixpoint try_map {A B} (f : A → result B) (l : list A) : result (list B) :=
  match l with
  | [] => inr []
  | x :: l' => rbind (f x) (λ y, rbind (try_map f l') (λ ys, inr (y :: ys)))
  end.

(** ** Cell values and tables *)

(** What a cell of an object column can hold.  [VOpaque e] is an object
    whose [__str__] raises [e]: a value that cannot be cast to text. *)
Inductive value :=
  | VNone
  | VStr (s : string)
  | VInt (n : Z)
  | VOpaque (e : exn).

Global Instance value_eq_dec : EqDecision value.
Proof. solve_decision. Defined.

(** Python's [str(x)] on a cell. *)
Definition py_str (x : value) : result string :=
  match x with
  | VNone => inr "None"
  | VStr s => inr s
  | VInt n => inr (pretty n)
  | VOpaque e => inl e
  end.

Inductive dtype := DString | DOther.

Global Instance dtype_eq_dec : EqDecision dtype.
Proof. solve_decision. Defined.

(** A pandas DataFrame, row-major: the column labels with their dtypes and
    the rows in index order.  A frame can have rows and no columns
    (selecting no column keeps the index), hence rows are not derived from
    the columns. *)
Record DataFrame := mkDF {
  df_columns : list (string * dtype);
  df_rows : list (list value)
}.

Global Instance DataFrame_eq_dec : EqDecision DataFrame.
Proof. solve_decision. Defined.

(** [len(df)] *)
Definition nrows (df : DataFrame) : nat := length (df_rows df).
Definition ncols (df : DataFrame) : nat := length (df_columns df).

(** [df.shape] as printed in an f-string. *)
Definition shape_str (df : DataFrame) : string :=
  "(" +:+ pretty (nrows df) +:+ ", " +:+ pretty (ncols df) +:+ ")".

(** [df.empty]: some axis has length zero. *)
Definition df_empty (df : DataFrame) : bool :=
  bool_decide (nrows df = 0) || bool_decide (ncols df = 0).

Definition cell (r : list value) (j : nat) : value := default VNone (r !! j).

(** The frame restricted to the column positions [idx], in that order. *)
Definition take_columns (idx : list nat) (df : DataFrame) : DataFrame :=
  {| df_columns := omap (λ j, df_columns df !! j) idx;
     df_rows := map (λ r, map (cell r) idx) (df_rows df) |}.

(** Positions of the columns labelled [name]. *)
Definition column_positions (name : string) (df : DataFrame) : list nat :=
  filter (λ j, fst <$> df_columns df !! j = Some name) (seq 0 (ncols df)).

(** [df[names]]: for each label, every column carrying it; a label that is
    not a column raises [KeyError]. *)
Definition select_columns (df : DataFrame) (names : list string) : result DataFrame :=
  rbind (try_map (λ n, match column_positions n df with
                       | [] => inl (mkExn KeyError n)
                       | ps => inr ps
                       end) names)
        (λ pss, inr (take_columns (concat pss) df)).

(** Keeps the first occurrence of every element, in order. *)
Fixpoint keep_first {A} `{EqDecision A} (l : list A) : list A :=
  match l with
  | [] => []
  | x :: l' => x :: filter (λ y, y ≠ x) (keep_first l')
  end.

(** [df.drop_duplicates()]: pandas returns a copy of an empty frame (no
    rows or no columns) as it is; otherwise rows equal on all columns are
    dropped but the first. *)
Definition drop_duplicates (df : DataFrame) : DataFrame :=
  if df_empty df then df
  else {| df_columns := df_columns df; df_rows := keep_first (df_rows df) |}.

(** Draws [n] elements of [l] without replacement; the random source
    [rng] picks, at each draw, a position among the elements left. *)
Fixpoint sample_list {A} (rng : list nat) (n : nat) (l : list A) : list A :=
  match n with
  | 0 => []
  | S n' =>
      match l with
      | [] => []
      | x0 :: _ =>
          let i := (default 0 (head rng)) `mod` length l in
          default x0 (l !! i) :: sample_list (tail rng) n' (delete i l)
      end
  end.

(** [df.sample(n=n, replace=False)]: [n] rows without replacement;
    pandas raises [ValueError] when asked for more rows than there are. *)
Definition df_sample (rng : list nat) (df : DataFrame) (n : nat) : result DataFrame :=
  if bool_decide (n ≤ nrows df)
  then inr {| df_columns := df_columns df; df_rows := sample_list rng n (df_rows df) |}
  else inl (mkExn ValueError
              "Cannot take a larger sample than population when 'replace=False'").

(** Python's [len(s)]: a [str] is a sequence of code points.  Strings are
    held here as their UTF-8 bytes, and every code point has exactly one
    byte that is not a continuation byte (the bytes [10xxxxxx]). *)
Definition continuation_byte (a : Ascii.ascii) : bool :=
  match a with Ascii.Ascii _ _ _ _ _ _ b6 b7 => b7 && negb b6 end.

Fixpoint py_len (s : string) : nat :=
  match s with
  | EmptyString => 0
  | String a s' => (if continuation_byte a then 0 else 1) + py_len s'
  end.

(** Python's [sub in s] on strings. *)
Fixpoint contains (sub s : string) : bool :=
  String.prefix sub s
  || match s with
     | EmptyString => false
     | String _ s' => contains sub s'
     end.

(** Python's [s.startswith(p)] and [s.endswith(p)]. *)
Definition startswith (p s : string) : bool := String.prefix p s.
Definition endswith (p s : string) : bool :=
  String.prefix (String.rev p) (String.rev s).

(** [os.path.join(a, b)] (posixpath): an absolute [b] replaces [a]. *)
Definition os_path_join (a b : string) : string :=
  if startswith "/" b then b
  else if bool_decide (a = "") || endswith "/" a then a +:+ b
  else a +:+ "/" +:+ b.

(** ** The helpers of [tabliblib.filters] and [tabliblib.io] *)

(** The cells of a row that a row filter looks at: with
    [string_columns_only], those under a string-typed column. *)
Definition filter_cells (cols : list (string * dtype)) (string_columns_only : bool)
    (r : list value) : list value :=
  if string_columns_only
  then snd <$> filter (λ p, snd (fst p) = DString) (zip cols r)
  else r.

(** [filter_fn] on every inspected cell of a row: does any of them match? *)
Definition row_matches (cols : list (string * dtype)) (string_columns_only : bool)
    (filter_fn : value → result bool) (r : list value) : result bool :=
  rbind (try_map filter_fn (filter_cells cols string_columns_only r))
        (λ bs, inr (existsb id bs)).

(** Modelled from the spec: [apply_row_based_filter] of [tabliblib.filters]
    is missing.  Section 4.3: the predicate is evaluated over string-typed
    columns only, other columns are ignored by the predicate and retained in
    the output; the rows for which [filter_fn] holds on some inspected value
    are dropped, the others kept in order.  An exception of [filter_fn] is
    not handled here. *)
Definition apply_row_based_filter (df : DataFrame) (filter_fn : value → result bool)
    (string_columns_only : bool) : result DataFrame :=
  rbind (try_map (row_matches (df_columns df) string_columns_only filter_fn) (df_rows df))
        (λ ms, inr {| df_columns := df_columns df;
                      df_rows := fst <$> filter (λ p, snd p = false) (zip (df_rows df) ms) |}).

(** A null-like value: missing or the empty string. *)
Definition null_like (v : value) : bool :=
  match v with
  | VNone => true
  | VStr s => bool_decide (s = "")
  | _ => false
  end.

Definition column_values (df : DataFrame) (j : nat) : list value :=
  map (λ r, cell r j) (df_rows df).

(** The three criteria of section 4.1 on the column at position [j].  The
    fraction of null-like values is compared with [max_null_like_frac]
    without dividing. *)
Definition valid_column (df : DataFrame) (max_header_len_chars min_unique_column_values : nat)
    (max_null_like_frac : Q) (j : nat) (name : string) : bool :=
  let vs := column_values df j in
  let nulls := length (filter (λ v, null_like v = true) vs) in
  bool_decide (py_len name ≤ max_header_len_chars)
  && bool_decide (min_unique_column_values
                    ≤ length (keep_first (filter (λ v, null_like v = false) vs)))
  && bool_decide (Z.of_nat nulls * Z.pos (Qden max_null_like_frac)
                    ≤ Qnum max_null_like_frac * Z.of_nat (length vs))%Z.

(** Modelled from the spec: [fetch_names_of_valid_columns] of
    [tabliblib.filters] is missing.  Section 4.1: the ordered names of the
    columns whose header length is at most the maximum, whose count of
    distinct non-null-like values is at least the minimum and whose
    fraction of null-like values is at most the maximum. *)
Definition fetch_names_of_valid_columns (df : DataFrame)
    (max_header_len_chars min_unique_column_values : nat) (max_null_like_frac : Q)
    : list string :=
  omap (λ p, if valid_column df max_header_len_chars min_unique_column_values
                  max_null_like_frac (fst p) (fst (snd p))
             then Some (fst (snd p)) else None)
       (zip (seq 0 (ncols df)) (df_columns df)).

(** Modelled from the spec: [sample_columns_if_needed] of [tabliblib.io]
    is missing.  Section 4.2: with more than [max_cols] columns, exactly
    [max_cols] of them drawn without replacement; otherwise the frame
    unchanged. *)
Definition sample_columns_if_needed (rng : list nat) (df : DataFrame) (max_cols : nat)
    : DataFrame :=
  if bool_decide (max_cols < ncols df)
  then take_columns (sample_list rng max_cols (seq 0 (ncols df))) df
  else df.

(** Modelled from the spec: [PreprocessConfig] of [tabliblib.config] is
    missing.  Section 6 lists its options; counts and lengths are natural
    numbers, the optional thresholds are options. *)
Record PreprocessConfig := mkConfig {
  drop_invalid_cols : bool;
  max_header_len_chars : nat;
  min_unique_column_values : nat;
  max_null_like_frac : Q;
  drop_extra_cols : bool;
  max_cols : nat;
  max_value_len_chars : option nat;
  filter_rows_containing_substrings : list string;
  filter_rows_containing_code : bool;
  filter_rows_containing_pii : bool;
  drop_duplicate_rows : bool;
  min_rows : option nat;
  drop_extra_rows : bool;
  max_output_rows : nat
}.

(** ** Records *)

(** The values a record (a Python dict with string keys) holds. *)
Inductive pyobj :=
  | PyNone
  | PyStr (s : string)
  | PyInt (n : Z)
  | PyBytes (b : list Byte.byte)
  | PyDataFrame (df : DataFrame).

Abbreviation pyrecord := (gmap string pyobj).

(** ** The world: file system, log, random sources *)

(** What a written file holds: the format it was serialised in, whether
    an index column was written, and the table. *)
Record FileData := mkFile {
  file_format : string;
  file_index : bool;
  file_table : DataFrame
}.

(** The nine stages of the pipeline. *)
Inductive Stage :=
  | ColumnValidation
  | ColumnReduction
  | ValueLengthFilter
  | SubstringFilter
  | CodeFilter
  | PIIFilter
  | Deduplication
  | MinRowCheck
  | RowReduction.

Global Instance Stage_eq_dec : EqDecision Stage.
Proof. solve_decision. Defined.

(** A marker left by a stage when it runs: the table it received and the
    table it left. *)
Record event := mkEvent { ev_stage : Stage; ev_in : DataFrame; ev_out : DataFrame }.

Record World := mkWorld {
  dirs : gset string;              (* directories that exist *)
  files : gmap string FileData;    (* files, by path *)
  log : list string;               (* lines given to [logging.warning] *)
  trace : list event;              (* stage markers, oldest first *)
  uuids : list string;             (* what [uuid.uuid1()] will return next *)
  rng : list nat                   (* the random source of pandas' sampling *)
}.

(** How a block of statements ends: it falls through with a value, it
    executes [return r], or it raises. *)
Inductive outcome (A : Type) :=
  | Normal (a : A)
  | Return (r : pyrecord)
  | Raise (e : exn).
Arguments Normal {A} a.
Arguments Return {A} r.
Arguments Raise {A} e.

Definition M (A : Type) : Type := World → outcome A * World.

Definition ret {A} (a : A) : M A := λ w, (Normal a, w).
Definition bind {A B} (m : M A) (k : A → M B) : M B :=
  λ w, match m w with
       | (Normal a, w') => k a w'
       | (Return r, w') => (Return r, w')
       | (Raise e, w') => (Raise e, w')
       end.
Definition return_ {A} (r : pyrecord) : M A := λ w, (Return r, w).
Definition raise {A} (e : exn) : M A := λ w, (Raise e, w).
Definition lift {A} (x : result A) : M A :=
  match x with inl e => raise e | inr a => ret a end.

Declare Scope py_scope.
Delimit Scope py_scope with py.
Notation "x ← y ; z" := (bind y (λ x, z))
  (at level 20, y at level 100, z at level 200, only parsing) : py_scope.
Notation "y ;; z" := (bind y (λ _, z))
  (at level 100, z at level 200, right associativity, only parsing) : py_scope.

(** [str(uuid.uuid1())] *)
Definition uuid1 : M string := λ w,
  (Normal (default "" (head (uuids w))),
   mkWorld (dirs w) (files w) (log w) (trace w) (tail (uuids w)) (rng w)).

(** [logging.warning(msg)] *)
Definition logging_warning (msg : string) : M unit := λ w,
  (Normal (), mkWorld (dirs w) (files w) (log w ++ [msg]) (trace w) (uuids w) (rng w)).

(** Leaves the marker of stage [s]; the code has no such statement, the
    markers only record which stages ran. *)
Definition mark (s : Stage) (df_in df_out : DataFrame) : M unit := λ w,
  (Normal (), mkWorld (dirs w) (files w) (log w)
                (trace w ++ [mkEvent s df_in df_out]) (uuids w) (rng w)).

(** A pandas sampling call: reads the random source and advances it by
    the [k] draws it makes. *)
Definition with_rng {A} (k : nat) (f : list nat → A) : M A := λ w,
  (Normal (f (rng w)),
   mkWorld (dirs w) (files w) (log w) (trace w) (uuids w) (drop k (rng w))).

(** Writing a file binds its path; paths are keys, and the failures of
    the operating system itself (a directory that is missing or cannot be
    created, permissions, disk space) are not modelled. *)
Definition write_file (path : string) (d : FileData) : M unit := λ w,
  (Normal (), mkWorld (dirs w) (<[path := d]> (files w)) (log w) (trace w) (uuids w) (rng w)).

(** [try: body except Exception as e: handler e] *)
Definition try_except {A} (body : M A) (handler : exn → M A) : M A :=
  λ w, match body w with
       | (Raise e, w') => handler e w'
       | x => x
       end.

(** A call seen from the caller: the callee's [return r] is the value of
    the call. *)
Definition call (body : M pyrecord) : M pyrecord :=
  λ w, match body w with
       | (Return r, w') => (Normal r, w')
       | x => x
       end.

(** [d[key]] on a dict *)
Definition getitem (d : pyrecord) (key : string) : M pyobj :=
  match d !! key with
  | Some o => ret o
  | None => raise (key_error key)
  end.

Local Open Scope py_scope.

(** ** External collaborators

    What the code calls and is not under [src/]: the operating system,
    the Arrow codec and writer, and the two detectors of
    [tabliblib.filters]. *)
Class Externals := {
  (** [os.path.abspath], which depends on the working directory. *)
  abspath : string → string;
  (** [str()] of the objects whose text is never inspected here (bytes,
      tables). *)
  py_repr : pyobj → string;
  (** The Arrow decoder behind [read_arrow_bytes]; [None] when the bytes
      are not a table. *)
  decode_arrow : list Byte.byte → option DataFrame;
  (** Modelled from the spec: [contains_code] and [contains_pii] of
      [tabliblib.filters] are missing.  Section 1: opaque predicates on a
      value, [IsCode(value) -> bool] and [ContainsPII(value) -> bool]. *)
  contains_code : value → bool;
  contains_pii : value → bool;
  (** The tables the writers of pandas and Arrow fail on (a value that
      has no text, a type Parquet cannot encode): the exception raised,
      and the part of the table that is in the file by then, if the file
      was created at all (an empty file holds no row and no column). *)
  csv_fault : DataFrame → option (exn * option DataFrame);
  parquet_fault : DataFrame → option (exn * option DataFrame)
}.

Section Pipeline.

Context `{Externals}.

(** [os.makedirs(p, exist_ok=True)]: the directory [p] exists afterwards.
    Directories are recorded by their absolute path; the ancestors created
    on the way are not recorded. *)
Definition makedirs (p : string) : M unit := λ w,
  (Normal (), mkWorld ({[abspath p]} ∪ dirs w) (files w) (log w) (trace w)
                (uuids w) (rng w)).

(** Python's [str(o)] on a record field. *)
Definition str (o : pyobj) : string :=
  match o with
  | PyStr s => s
  | PyInt n => pretty n
  | PyNone => "None"
  | _ => py_repr o
  end.

(** Modelled from the spec: [read_arrow_bytes] of [tabliblib.io] is
    missing.  Section 3: the encoded bytes are decoded, and with
    [raise_on_error=True] a decoding failure is raised. *)
Definition read_arrow_bytes (arrow_bytes : pyobj) : result DataFrame :=
  match arrow_bytes with
  | PyBytes b =>
      match decode_arrow b with
      | Some df => inr df
      | None => inl (mkExn ArrowInvalid "could not read arrow bytes")
      end
  | _ => inl (mkExn TypeError "a bytes-like object is required")
  end.

(** Lines 42-106 use [df] as a table.  Binding it (line 37) checks
    nothing; an object that is not a table has none of the table's
    attributes, which shows once the keys have been read. *)
Definition as_dataframe (o : pyobj) : M DataFrame :=
  match o with
  | PyDataFrame df => ret df
  | _ => raise (mkExn AttributeError "object is not a DataFrame")
  end.

(** A writer at work: the whole table goes to the file, or the writer
    raises and leaves what it had written. *)
Definition write_or_fail (fault : option (exn * option DataFrame))
    (fmt filename : string) (index : bool) (df : DataFrame) : M unit :=
  match fault with
  | None => write_file filename (mkFile fmt index df)
  | Some (e, Some part) => write_file filename (mkFile fmt index part);; raise e
  | Some (e, None) => raise e
  end.

(** [df.to_csv(filename, index=index)] *)
Definition to_csv (df : DataFrame) (filename : string) (index : bool) : M unit :=
  write_or_fail (csv_fault df) "csv" filename index df.

(** [df.to_parquet(filename, index=index)] *)
Definition to_parquet (df : DataFrame) (filename : string) (index : bool) : M unit :=
  write_or_fail (parquet_fault df) "parquet" filename index df.

(** [lambda x: len(str(x)) > config.max_value_len_chars] (line 54) *)
Definition value_too_long (max_len : nat) (x : value) : result bool :=
  rbind (py_str x) (λ s, inr (bool_decide (max_len < py_len s))).

(** Lines 61-66: [any(substr in str(x) for substr in ...)], and [False]
    when anything is raised. *)
Definition _contains_substring_filter_fn (config : PreprocessConfig) (x : value)
    : result bool :=
  match py_str x with
  | inr s => inr (existsb (λ substr, contains substr s)
                    (filter_rows_containing_substrings config))
  | inl _ => inr false
  end.

(** *** The stages of [write_dataframe_to_file], in source order.

    Every stage leaves a [mark] once its configuration guard has let it
    in and its table operation has completed. *)

(** Lines 42-47 *)
Definition column_validation_stage (config : PreprocessConfig) (df : DataFrame)
    : M DataFrame :=
  if drop_invalid_cols config then
    let valid_colnames :=
      fetch_names_of_valid_columns df (max_header_len_chars config)
        (min_unique_column_values config) (max_null_like_frac config) in
    df' ← lift (select_columns df valid_colnames);
    mark ColumnValidation df df';;
    ret df'
  else ret df.

(** Lines 49-50 *)
Definition column_reduction_stage (config : PreprocessConfig) (df : DataFrame)
    : M DataFrame :=
  if drop_extra_cols config then
    df' ← with_rng (if bool_decide (max_cols config < ncols df)
                    then max_cols config else 0)
            (λ r, sample_columns_if_needed r df (max_cols config));
    mark ColumnReduction df df';;
    ret df'
  else ret df.

(** Lines 52-58; [if config.max_value_len_chars:] is false for [None]
    and for [0]. *)
Definition value_length_stage (row : pyrecord) (config : PreprocessConfig)
    (df : DataFrame) : M DataFrame :=
  match max_value_len_chars config with
  | Some (S n) =>
      df' ← lift (apply_row_based_filter df (value_too_long (S n)) true);
      mark ValueLengthFilter df df';;
      if bool_decide (nrows df' = 0) then
        logging_warning "dataframe is empty after applying config.max_value_len_chars";;
        return_ row
      else ret df'
  | _ => ret df
  end.

(** Lines 60-71; [if config.filter_rows_containing_substrings:] is false
    for the empty list. *)
Definition substring_stage (row : pyrecord) (config : PreprocessConfig)
    (df : DataFrame) : M DataFrame :=
  match filter_rows_containing_substrings config with
  | _ :: _ =>
      df' ← lift (apply_row_based_filter df (_contains_substring_filter_fn config) true);
      mark SubstringFilter df df';;
      if bool_decide (nrows df' = 0) then
        logging_warning
          "dataframe is empty after applying config.filter_rows_containing_substrings";;
        return_ row
      else ret df'
  | [] => ret df
  end.

(** Lines 73-77 *)
Definition code_stage (row : pyrecord) (config : PreprocessConfig)
    (df : DataFrame) : M DataFrame :=
  if filter_rows_containing_code config then
    df' ← lift (apply_row_based_filter df (λ x, inr (contains_code x)) true);
    mark CodeFilter df df';;
    if bool_decide (nrows df' = 0) then
      logging_warning
        "dataframe is empty after applying config.filter_rows_containing_code";;
      return_ row
    else ret df'
  else ret df.

(** Lines 79-83 *)
Definition pii_stage (row : pyrecord) (config : PreprocessConfig)
    (df : DataFrame) : M DataFrame :=
  if filter_rows_containing_pii config then
    df' ← lift (apply_row_based_filter df (λ x, inr (contains_pii x)) true);
    mark PIIFilter df df';;
    if bool_decide (nrows df' = 0) then
      logging_warning
        "dataframe is empty after applying config.filter_rows_containing_pii";;
      return_ row
    else ret df'
  else ret df.

(** Lines 85-86 *)
Definition deduplication_stage (config : PreprocessConfig) (df : DataFrame)
    : M DataFrame :=
  if drop_duplicate_rows config then
    let df' := drop_duplicates df in
    mark Deduplication df df';;
    ret df'
  else ret df.

(** Lines 88-90 *)
Definition min_rows_stage (row : pyrecord) (config : PreprocessConfig)
    (df : DataFrame) : M DataFrame :=
  match min_rows config with
  | Some m =>
      mark MinRowCheck df df;;
      if bool_decide (nrows df < m) then
        logging_warning ("dataframe contains " +:+ pretty (nrows df)
                         +:+ " rows after filtering; dropping");;
        return_ row
      else ret df
  | None => ret df
  end.

(** Lines 92-95 *)
Definition row_reduction_stage (row : pyrecord) (config : PreprocessConfig)
    (df : DataFrame) : M DataFrame :=
  if drop_extra_rows config then
    if bool_decide (max_output_rows config < nrows df) then
      df' ← bind (with_rng (max_output_rows config)
                    (λ r, df_sample r df (max_output_rows config))) lift;
      mark RowReduction df df';;
      if bool_decide (nrows df' = 0) then return_ row else ret df'
    else
      mark RowReduction df df;;
      ret df
  else ret df.

(** Lines 97-106 *)
Definition output_stage (row : pyrecord) (output_format filename : string)
    (df : DataFrame) : M pyrecord :=
  logging_warning ("[DEBUG] writing dataframe of shape " +:+ shape_str df
                   +:+ " to " +:+ filename);;
  (if bool_decide (output_format = "csv") then to_csv df filename false
   else if bool_decide (output_format = "parquet") then to_parquet df filename false
   else ret ());;
  return_ row.

(** Lines 16-106.  Ray's [.remote] and [ray.get] run the body and hand
    back its result or re-raise its exception; the CPU and memory
    reservations do not change either. *)
Definition write_dataframe_to_file (row : pyrecord) (root_dir output_format : string)
    (config : PreprocessConfig) : M pyrecord :=
  makedirs root_dir;;
  df_uuid ← uuid1;
  df ← match row !! "df" with
       | None =>
           arrow_bytes ← getitem row "arrow_bytes";
           df ← lift (read_arrow_bytes arrow_bytes);
           ret (PyDataFrame df)
       | Some o => ret o
       end;
  content_hash ← getitem row "content_hash";
  let output_file := str content_hash +:+ "__" +:+ df_uuid +:+ "." +:+ output_format in
  let filename := os_path_join (abspath root_dir) output_file in
  df ← as_dataframe df;
  df ← column_validation_stage config df;
  df ← column_reduction_stage config df;
  df ← value_length_stage row config df;
  df ← substring_stage row config df;
  df ← code_stage row config df;
  df ← pii_stage row config df;
  df ← deduplication_stage config df;
  df ← min_rows_stage row config df;
  df ← row_reduction_stage row config df;
  output_stage row output_format filename df.

(** Lines 109-115 *)
Record DataFrameFileDataSink := mkSink {
  base_path : string;
  output_format : string;
  mem_per_writer : N;
  config : PreprocessConfig;
  num_cpus_per_writer : nat
}.

(** Lines 127-155 *)
Definition _write_element (self : DataFrameFileDataSink) (element : pyrecord)
    : M pyrecord :=
  try_except
    (r ← call (write_dataframe_to_file element (base_path self)
                 (output_format self) (config self));
     return_ r)
    (λ e,
       if bool_decide (exn_cls e = ArrowNotImplementedError) then
         content_hash ← getitem element "content_hash";
         logging_warning
           ("pa.lib.ArrowNotImplementedError raised writing element with content_hash "
            +:+ str content_hash +:+ "; " +:+ exn_msg e);;
         return_ element
       else
         content_hash ← getitem element "content_hash";
         logging_warning
           ("exception raised writing element with content_hash "
            +:+ str content_hash +:+ ": " +:+ exn_msg e);;
         return_ element).

(** [dataset.map(f)] once the dataset is consumed: Ray applies [f] to
    every element, and an exception of [f] ends the consumption.  The
    elements are taken here one after the other, in order. *)
Fixpoint dataset_map (f : pyrecord → M pyrecord) (dataset : list pyrecord)
    : M (list pyrecord) :=
  match dataset with
  | [] => ret []
  | element :: rest =>
      r ← call (f element);
      rs ← dataset_map f rest;
      ret (r :: rs)
  end.

(** Lines 117-125 *)
Definition write (self : DataFrameFileDataSink) (dataset : list pyrecord)
    : M (list pyrecord) :=
  dataset_map (_write_element self) dataset.

(** ** The vocabulary of the properties *)

(** The order of section 4.5. *)
Definition pipeline : list Stage :=
  [ColumnValidation; ColumnReduction; ValueLengthFilter; SubstringFilter;
   CodeFilter; PIIFilter; Deduplication; MinRowCheck; RowReduction].

(** The block of [write_dataframe_to_file] that carries out a stage. *)
Definition stage_fn (row : pyrecord) (config : PreprocessConfig) (s : Stage)
    : DataFrame → M DataFrame :=
  match s with
  | ColumnValidation => column_validation_stage config
  | ColumnReduction => column_reduction_stage config
  | ValueLengthFilter => value_length_stage row config
  | SubstringFilter => substring_stage row config
  | CodeFilter => code_stage row config
  | PIIFilter => pii_stage row config
  | Deduplication => deduplication_stage config
  | MinRowCheck => min_rows_stage row config
  | RowReduction => row_reduction_stage row config
  end.

(** Blocks run one after the other on the table the previous one left,
    then the rest [k] of the function. *)
Fixpoint run_stages (blocks : list (DataFrame → M DataFrame))
    (k : DataFrame → M pyrecord) (df : DataFrame) : M pyrecord :=
  match blocks with
  | [] => k df
  | b :: blocks' => bind (b df) (run_stages blocks' k)
  end.

(** The configuration guard of a stage, as Python evaluates it. *)
Definition enabled (config : PreprocessConfig) (s : Stage) : bool :=
  match s with
  | ColumnValidation => drop_invalid_cols config
  | ColumnReduction => drop_extra_cols config
  | ValueLengthFilter =>
      match max_value_len_chars config with Some (S _) => true | _ => false end
  | SubstringFilter =>
      match filter_rows_containing_substrings config with [] => false | _ => true end
  | CodeFilter => filter_rows_containing_code config
  | PIIFilter => filter_rows_containing_pii config
  | Deduplication => drop_duplicate_rows config
  | MinRowCheck => match min_rows config with Some _ => true | None => false end
  | RowReduction => drop_extra_rows config
  end.

Definition is_row_filter (s : Stage) : bool :=
  match s with
  | ValueLengthFilter | SubstringFilter | CodeFilter | PIIFilter => true
  | _ => false
  end.

(** The stages that act on the rows and leave the columns alone. *)
Definition row_stage (s : Stage) : bool :=
  match s with
  | ColumnValidation | ColumnReduction => false
  | _ => true
  end.

(** A marker after which the function returns the record without
    writing: a row filter or the sampling left no row, or the minimum row
    count is not met. *)
Definition rejects (config : PreprocessConfig) (ev : event) : bool :=
  match ev_stage ev with
  | ValueLengthFilter | SubstringFilter | CodeFilter | PIIFilter =>
      bool_decide (nrows (ev_out ev) = 0)
  | RowReduction =>
      bool_decide (max_output_rows config < nrows (ev_in ev))
      && bool_decide (nrows (ev_out ev) = 0)
  | MinRowCheck =>
      match min_rows config with
      | Some m => bool_decide (nrows (ev_out ev) < m)
      | None => false
      end
  | _ => false
  end.

(** The table operation of a stage: [df'] is what the stage makes of [df]. *)
Definition stage_op (config : PreprocessConfig) (s : Stage) (df df' : DataFrame) : Prop :=
  match s with
  | ColumnValidation =>
      select_columns df
        (fetch_names_of_valid_columns df (max_header_len_chars config)
           (min_unique_column_values config) (max_null_like_frac config)) = inr df'
  | ColumnReduction => ∃ r, df' = sample_columns_if_needed r df (max_cols config)
  | ValueLengthFilter =>
      ∃ n, max_value_len_chars config = Some n
           ∧ apply_row_based_filter df (value_too_long n) true = inr df'
  | SubstringFilter =>
      apply_row_based_filter df (_contains_substring_filter_fn config) true = inr df'
  | CodeFilter => apply_row_based_filter df (λ x, inr (contains_code x)) true = inr df'
  | PIIFilter => apply_row_based_filter df (λ x, inr (contains_pii x)) true = inr df'
  | Deduplication => df' = drop_duplicates df
  | MinRowCheck => df' = df
  | RowReduction =>
      if bool_decide (max_output_rows config < nrows df)
      then ∃ r, df_sample r df (max_output_rows config) = inr df'
      else df' = df
  end.

Definition event_sound (config : PreprocessConfig) (ev : event) : Prop :=
  stage_op config (ev_stage ev) (ev_in ev) (ev_out ev).

(** The markers are linked: each stage received what the previous left. *)
Fixpoint chained (df : DataFrame) (evs : list event) : Prop :=
  match evs with
  | [] => True
  | ev :: evs' => ev_in ev = df ∧ chained (ev_out ev) evs'
  end.

(** The table after the markers [evs], starting from [df]. *)
Definition last_table (df : DataFrame) (evs : list event) : DataFrame :=
  default df (ev_out <$> last evs).

(** [df'] is [df] taken through the stages [sts] without a rejection:
    a stage that is not enabled leaves the table alone. *)
Fixpoint steps (config : PreprocessConfig) (sts : list Stage) (df df' : DataFrame) : Prop :=
  match sts with
  | [] => df' = df
  | s :: sts' =>
      ∃ df1, (if enabled config s
              then stage_op config s df df1
                   ∧ rejects config (mkEvent s df df1) = false
              else df1 = df)
             ∧ steps config sts' df1 df'
  end.

(** Lines 32-37: the table of a record. *)
Definition table_of (row : pyrecord) : result DataFrame :=
  match row !! "df" with
  | None =>
      match row !! "arrow_bytes" with
      | Some arrow_bytes => read_arrow_bytes arrow_bytes
      | None => inl (key_error "arrow_bytes")
      end
  | Some (PyDataFrame df) => inr df
  | Some _ => inl (mkExn AttributeError "object is not a DataFrame")
  end.

(** Lines 32-39 read ["df"], then ["arrow_bytes"] when there is no
    ["df"], then ["content_hash"]: what is raised for a record without a
    table, [e] being why it has none. *)
Definition first_error (row : pyrecord) (e : exn) : exn :=
  match row !! "df", row !! "content_hash" with
  | Some _, None => key_error "content_hash"
  | _, _ => e
  end.

(** The failure of the writer that line 99-105 choose for a format. *)
Definition writer_fault (output_format : string) (df : DataFrame)
    : option (exn * option DataFrame) :=
  if bool_decide (output_format = "csv") then csv_fault df
  else if bool_decide (output_format = "parquet") then parquet_fault df
  else None.

(** Lines 39-40: the path of the output file. *)
Definition output_path (content_hash : pyobj) (df_uuid root_dir output_format : string)
    : string :=
  os_path_join (abspath root_dir)
    (str content_hash +:+ "__" +:+ df_uuid +:+ "." +:+ output_format).

(** [df'] has the columns of [df] and some of its rows, and is not
    emptied. *)
Definition rows_kept (df df' : DataFrame) : Prop :=
  df_columns df' = df_columns df
  ∧ df_rows df' ⊆+ df_rows df
  ∧ (nrows df ≠ 0 → nrows df' ≠ 0).

(** No inspected value of any row of [T] matches [filter_fn]. *)
Definition clean (filter_fn : value → result bool) (T : DataFrame) : Prop :=
  Forall (λ r, row_matches (df_columns T) true filter_fn r = inr false) (df_rows T).

(** A table that stage [s] lets through as it is. *)
Definition settled (config : PreprocessConfig) (s : Stage) (T : DataFrame) : Prop :=
  match s with
  | ColumnValidation =>
      select_columns T
        (fetch_names_of_valid_columns T (max_header_len_chars config)
           (min_unique_column_values config) (max_null_like_frac config)) = inr T
  | ColumnReduction => ncols T ≤ max_cols config
  | ValueLengthFilter =>
      nrows T ≠ 0
      ∧ ∀ n, max_value_len_chars config = Some n → clean (value_too_long n) T
  | SubstringFilter =>
      nrows T ≠ 0 ∧ clean (_contains_substring_filter_fn config) T
  | CodeFilter => nrows T ≠ 0 ∧ clean (λ x, inr (contains_code x)) T
  | PIIFilter => nrows T ≠ 0 ∧ clean (λ x, inr (contains_pii x)) T
  | Deduplication => ncols T = 0 ∨ NoDup (df_rows T)
  | MinRowCheck => ∀ m, min_rows config = Some m → m ≤ nrows T
  | RowReduction => nrows T ≤ max_output_rows config
  end.

(** The world with the markers [evs] added. *)
Definition add_markers (evs : list event) (w : World) : World :=
  mkWorld (dirs w) (files w) (log w) (trace w ++ evs) (uuids w) (rng w).

(** A step that leaves the file system as it was. *)
Definition same_fs (w w' : World) : Prop :=
  dirs w' = dirs w ∧ files w' = files w.

(** The world after lines 28-31. *)
Definition after_prelude (root_dir : string) (w : World) : World :=
  mkWorld ({[abspath root_dir]} ∪ dirs w) (files w) (log w) (trace w)
    (tail (uuids w)) (rng w).

End Pipeline.

(** ** A concrete environment, for the examples *)

Definition opaque_error (v : value) : option exn :=
  match v with VOpaque e => Some e | _ => None end.

Definition demo_externals : Externals := {|
  abspath := λ p, if startswith "/" p then p else "/data/" +:+ p;
  py_repr := λ _, "<object>";
  decode_arrow := λ _, None;
  contains_code := λ v, match py_str v with
                        | inr s => contains "def " s
                        | inl _ => false
                        end;
  contains_pii := λ v, match py_str v with
                       | inr s => contains "@" s
                       | inl _ => false
                       end;
  csv_fault := λ df,
    match list_find (λ r, omap opaque_error r ≠ []) (df_rows df) with
    | Some (i, r) =>
        Some (default (mkExn TypeError "") (head (omap opaque_error r)),
              Some (mkDF (df_columns df) (take i (df_rows df))))
    | None => None
    end;
  parquet_fault := λ df,
    if bool_decide (("meta", DOther) ∈ df_columns df)
    then Some (mkExn ArrowNotImplementedError
                 "Cannot write struct type 'meta' with no child field to Parquet.",
               Some (mkDF [] []))
    else None
|}.

(** An empty file system, two identifiers and some random draws to come. *)
Definition demo_world : World :=
  mkWorld ∅ ∅ [] [] ["6f1c"; "6f1d"] [2; 0; 1; 3].

(** Every stage off. *)
Definition config_off : PreprocessConfig :=
  mkConfig false 0 0 0 false 0 None [] false false false None false 0.

Definition letters : DataFrame :=
  mkDF [("a", DString)] [[VStr "x"]; [VStr "y"]; [VStr "z"]].

Definition record_of (content_hash : string) (df : DataFrame) : pyrecord :=
  <["content_hash" := PyStr content_hash]> (<["df" := PyDataFrame df]> ∅).

(** A record with encoded bytes only; the demo decoder reads no bytes. *)
Definition encoded_record : pyrecord :=
  <["content_hash" := PyStr "e3b0"]> (<["arrow_bytes" := PyBytes []]> ∅).

Definition demo_sink (fmt : string) (c : PreprocessConfig) : DataFrameFileDataSink :=
  mkSink "out" fmt 2000000000%N c 1.

(** Values of at most 3 characters, and deduplication. *)
Definition config_short_dedup : PreprocessConfig :=
  mkConfig false 0 0 0 false 0 (Some 3) [] false false true None false 0.

Definition long_words : DataFrame :=
  mkDF [("word", DString); ("n", DOther)]
       [[VStr "wonderful"; VInt 1]; [VStr "marvellous"; VInt 2]].

Definition emptied_run : outcome pyrecord * World :=
  write_dataframe_to_file (H := demo_externals) (record_of "abc" long_words)
    "out" "csv" config_short_dedup demo_world.

(** At least 2 rows, at most 1 row kept. *)
Definition config_min2_max1 : PreprocessConfig :=
  mkConfig false 0 0 0 false 0 None [] false false false (Some 2) true 1.

Definition sampled_run : outcome pyrecord * World :=
  write_dataframe_to_file (H := demo_externals) (record_of "abc" letters)
    "out" "csv" config_min2_max1 demo_world.

(** The table [sampled_run] writes. *)
Definition one_letter : DataFrame := mkDF [("a", DString)] [[VStr "z"]].

Definition second_run : outcome pyrecord * World :=
  write_dataframe_to_file (H := demo_externals) (record_of "abc" one_letter)
    "out" "csv" config_min2_max1 sampled_run.2.

(** Forbidden substrings, deduplication, at most 2 rows, at least 1. *)
Definition config_spam : PreprocessConfig :=
  mkConfig false 0 0 0 true 2 None ["spam"; "junk"] true true true (Some 1) true 2.

Definition mailbox : DataFrame :=
  mkDF [("subject", DString); ("body", DString); ("size", DOther)]
       [[VStr "hello"; VStr "see you"; VInt 3];
        [VStr "buy spam"; VStr "now"; VInt 4];
        [VStr "hello"; VStr "see you"; VInt 3];
        [VOpaque (mkExn TypeError "no text"); VStr "plain"; VStr "spam"];
        [VStr "note"; VStr "def f(x): pass"; VInt 9];
        [VStr "bye"; VStr "later"; VInt 5]].

Definition mailbox_run : outcome pyrecord * World :=
  write_dataframe_to_file (H := demo_externals) (record_of "m41l" mailbox)
    "out" "parquet" config_spam demo_world.

Definition plain_run : outcome pyrecord * World :=
  write_dataframe_to_file (H := demo_externals) (record_of "abc" letters)
    "out" "csv" config_off demo_world.

(** Columns need 2 distinct values; rows with "spam" are dropped. *)
Definition config_unique2_spam : PreprocessConfig :=
  mkConfig true 64 2 1 false 0 None ["spam"] false false false None false 0.

Definition two_subjects : DataFrame :=
  mkDF [("subject", DString)] [[VStr "hello"]; [VStr "spam"]].

Definition validated_run : outcome pyrecord * World :=
  write_dataframe_to_file (H := demo_externals) (record_of "abc" two_subjects)
    "out" "csv" config_unique2_spam demo_world.

Definition one_subject : DataFrame := mkDF [("subject", DString)] [[VStr "hello"]].

Definition revalidated_run : outcome pyrecord * World :=
  write_dataframe_to_file (H := demo_externals) (record_of "abc" one_subject)
    "out" "csv" config_unique2_spam validated_run.2.

(** The stages that send back a table without rows: an enabled row
    filter, and the minimum row count when it is at least 1. *)
Definition blocks_empty (config : PreprocessConfig) (s : Stage) : bool :=
  (is_row_filter s && enabled config s)
  || match s, min_rows config with
     | MinRowCheck, Some (S _) => true
     | _, _ => false
     end.

(** The warning a rejecting stage logs before it returns the record; the
    sampling that leaves no row logs nothing. *)
Definition rejection_log (ev : event) : list string :=
  match ev_stage ev with
  | ValueLengthFilter =>
      ["dataframe is empty after applying config.max_value_len_chars"]
  | SubstringFilter =>
      ["dataframe is empty after applying config.filter_rows_containing_substrings"]
  | CodeFilter =>
      ["dataframe is empty after applying config.filter_rows_containing_code"]
  | PIIFilter =>
      ["dataframe is empty after applying config.filter_rows_containing_pii"]
  | MinRowCheck =>
      ["dataframe contains " +:+ pretty (nrows (ev_out ev))
       +:+ " rows after filtering; dropping"]
  | _ => []
  end.

(** A table, but no content hash. *)
Definition nameless_record : pyrecord := <["df" := PyDataFrame letters]> ∅.

(** A content hash that is an absolute path. *)
Definition slash_run : outcome pyrecord * World :=
  write_dataframe_to_file (H := demo_externals) (record_of "/tmp/abc" letters)
    "out" "csv" config_off demo_world.

(** A format that is neither "csv" nor "parquet". *)
Definition json_run : outcome pyrecord * World :=
  write_dataframe_to_file (H := demo_externals) (record_of "abc" letters)
    "out" "json" config_off demo_world.

(** Values of at most 5 characters: the first word has 5 characters in 6
    bytes, the second has 8 characters. *)
Definition config_len5 : PreprocessConfig :=
  mkConfig false 0 0 0 false 0 (Some 5) [] false false false None false 0.

Definition accented : DataFrame :=
  mkDF [("word", DString)] [[VStr "naïve"]; [VStr "naïveté!"]].

Definition accented_run : outcome pyrecord * World :=
  write_dataframe_to_file (H := demo_externals) (record_of "abc" accented)
    "out" "csv" config_len5 demo_world.

(** A record whose ["df"] is not a table, and no content hash. *)
Definition odd_record : pyrecord := <["df" := PyStr "not a table"]> ∅.

Definition no_rows : DataFrame := mkDF [("a", DString)] [].



Definition empty_run : outcome pyrecord * World :=
  write_dataframe_to_file (H := demo_externals) (record_of "abc" no_rows)
    "out" "csv" config_off demo_world.

(** * Properties *)

Section Properties.

Context `{Externals}.

(** The function is its prelude, the nine stages in the order of
    [pipeline], and the output step. *)
Lemma write_dataframe_to_file_eq row root_dir fmt c w :
  write_dataframe_to_file row root_dir fmt c w =
  match table_of row with
  | inl e => (Raise (first_error row e), after_prelude root_dir w)
  | inr df =>
      match row !! "content_hash" with
      | None => (Raise (key_error "content_hash"), after_prelude root_dir w)
      | Some h =>
          run_stages (stage_fn row c <$> pipeline)
            (output_stage row fmt
               (output_path h (default "" (head (uuids w))) root_dir fmt))
            df (after_prelude root_dir w)
      end
  end.
Proof.
  unfold write_dataframe_to_file, table_of, first_error, after_prelude, bind,
    makedirs, uuid1, getitem; simpl.
  destruct (row !! "df") as [[]|] eqn:Hdf; simpl.
  1-5: destruct (row !! "content_hash"); reflexivity.
  destruct (row !! "arrow_bytes") as [a|]; simpl; [|reflexivity].
  destruct (read_arrow_bytes a); simpl; [reflexivity|].
  destruct (row !! "content_hash"); reflexivity.
Qed.

(** Without a table the call raises before any stage, whatever else the
    record holds. *)
Lemma first_error_cases row e :
  first_error row e = e ∨ row !! "content_hash" = None.
Proof. unfold first_error. destruct (row !! "df"), (row !! "content_hash"); auto. Qed.

Ltac unfold_stage :=
  unfold column_validation_stage, column_reduction_stage, value_length_stage,
    substring_stage, code_stage, pii_stage, deduplication_stage, min_rows_stage,
    row_reduction_stage, bind, lift, mark, ret, return_, raise, logging_warning,
    with_rng, same_fs in *.

(** What a stage does to the world and how it ends. *)
Lemma stage_contract row c s df w o w' :
  stage_fn row c s df w = (o, w') →
  same_fs w w' ∧
  if enabled c s then
    match o with
    | Normal df' =>
        trace w' = trace w ++ [mkEvent s df df'] ∧ stage_op c s df df'
        ∧ rejects c (mkEvent s df df') = false
    | Return r =>
        r = row ∧ ∃ df', trace w' = trace w ++ [mkEvent s df df']
                         ∧ stage_op c s df df'
                         ∧ rejects c (mkEvent s df df') = true
    | Raise e => trace w' = trace w
    end
  else o = Normal df ∧ w' = w.
Proof.
  destruct s; simpl; unfold_stage; unfold rejects; simpl.
  all: repeat (case_match; simpl in * ); intros; simplify_eq/=.
  all: try (by eauto 10).
Qed.

Lemma last_table_cons df ev evs :
  last_table df (ev :: evs) = last_table (ev_out ev) evs.
Proof.
  unfold last_table. destruct evs as [|ev' evs]; [done|].
  rewrite last_cons_cons, last_cons. by destruct (last evs).
Qed.

Lemma same_fs_trans w1 w2 w3 : same_fs w1 w2 → same_fs w2 w3 → same_fs w1 w3.
Proof. unfold same_fs. intros [-> ->] [-> ->]. done. Qed.

(** How a run of consecutive stages ends: it reaches the rest of the
    function, or a stage returns the record, or a stage raises.  In each
    case the markers tell which stages ran on which tables. *)
Lemma run_stages_inv row c sts k df w o w' :
  run_stages (stage_fn row c <$> sts) k df w = (o, w') →
  ∃ evs,
    chained df evs ∧ Forall (event_sound c) evs
    ∧ ev_stage <$> evs `prefix_of` filter (λ s, enabled c s = true) sts
    ∧ ((∃ w1, k (last_table df evs) w1 = (o, w') ∧ same_fs w w1
              ∧ trace w1 = trace w ++ evs
              ∧ ev_stage <$> evs = filter (λ s, enabled c s = true) sts
              ∧ Forall (λ ev, rejects c ev = false) evs
              ∧ steps c sts df (last_table df evs))
       ∨ (o = Return row ∧ same_fs w w' ∧ trace w' = trace w ++ evs
          ∧ ∃ evs0 ev, evs = evs0 ++ [ev]
                       ∧ Forall (λ ev, rejects c ev = false) evs0
                       ∧ rejects c ev = true)
       ∨ (∃ e, o = Raise e ∧ same_fs w w' ∧ trace w' = trace w ++ evs
               ∧ Forall (λ ev, rejects c ev = false) evs)).
Proof.
  revert df w. induction sts as [|s sts IH]; intros df w Hrun.
  - exists []. simpl in *. split; [done|]. split; [constructor|]. split; [done|].
    left. exists w. rewrite app_nil_r. by split_and!.
  - simpl in Hrun. unfold bind in Hrun at 1.
    destruct (stage_fn row c s df w) as [o1 w1] eqn:Est.
    apply stage_contract in Est as [Hfs Hst].
    destruct (enabled c s) eqn:En.
    + destruct o1 as [df1|r|e].
      * destruct Hst as (Htr & Hop & Hrej).
        apply IH in Hrun as (evs & Hch & Hsound & Hpre & Hend).
        exists (mkEvent s df df1 :: evs).
        rewrite last_table_cons, filter_cons_True by done. simpl.
        split; [done|]. split; [by constructor|]. split; [by apply prefix_cons|].
        destruct Hend as [(w2 & Hk & Hfs2 & Htr2 & Hall & Hnr & Hsteps)
                         |[(-> & Hfs2 & Htr2 & evs0 & ev & -> & Hnr & Hr)
                          |(e & -> & Hfs2 & Htr2 & Hnr)]].
        -- left. exists w2. split_and!; try done.
           ++ by eapply same_fs_trans.
           ++ by rewrite Htr2, Htr, <- app_assoc.
           ++ f_equal. exact Hall.
           ++ by constructor.
           ++ exists df1. by rewrite En.
        -- right. left. split_and!; try done.
           ++ by eapply same_fs_trans.
           ++ by rewrite Htr2, Htr, <- app_assoc.
           ++ exists (mkEvent s df df1 :: evs0), ev. split_and!; try done.
              by constructor.
        -- right. right. exists e. split_and!; try done.
           ++ by eapply same_fs_trans.
           ++ by rewrite Htr2, Htr, <- app_assoc.
           ++ by constructor.
      * destruct Hst as (-> & df1 & Htr & Hop & Hrej). simplify_eq.
        exists [mkEvent s df df1]. rewrite filter_cons_True by done. simpl.
        split; [done|]. split; [by repeat constructor|].
        split; [apply prefix_cons, prefix_nil|].
        right. left. split_and!; try done.
        exists [], (mkEvent s df df1). split_and!; try done.
      * simplify_eq. exists []. simpl.
        split; [done|]. split; [constructor|]. split; [apply prefix_nil|].
        right. right. exists e. rewrite app_nil_r. split_and!; try done.
    + destruct Hst as [-> ->].
      apply IH in Hrun as (evs & Hch & Hsound & Hpre & Hend).
      exists evs. rewrite filter_cons_False by (by rewrite En).
      split_and!; try done.
      destruct Hend as [(w2 & Hk & Hfs2 & Htr2 & Hall & Hnr & Hsteps)|Hend];
        [|by right].
      left. exists w2. split_and!; try done.
      simpl. exists df. by rewrite En.
Qed.

(** The output step: one file with the table and no index column, or the
    writer's failure with what it left, or nothing for a format that is
    neither "csv" nor "parquet". *)
Lemma output_stage_inv row fmt filename df w o w' :
  output_stage row fmt filename df w = (o, w') →
  dirs w' = dirs w ∧ trace w' = trace w
  ∧ ((o = Return row ∧ (fmt = "csv" ∨ fmt = "parquet")
      ∧ files w' = <[filename := mkFile fmt false df]> (files w))
     ∨ (o = Return row ∧ fmt ≠ "csv" ∧ fmt ≠ "parquet" ∧ files w' = files w)
     ∨ (∃ e left, o = Raise e ∧ (fmt = "csv" ∨ fmt = "parquet")
                  ∧ writer_fault fmt df = Some (e, left)
                  ∧ files w' = match left with
                               | Some part =>
                                   <[filename := mkFile fmt false part]> (files w)
                               | None => files w
                               end))
  ∧ (o = Return row → writer_fault fmt df = None).
Proof.
  unfold output_stage, to_csv, to_parquet, writer_fault, write_or_fail, write_file,
    bind, logging_warning, return_, raise, ret; simpl.
  repeat case_bool_decide; subst; simpl.
  - destruct (csv_fault df) as [[e [part|]]|] eqn:Hp; simpl;
      intros [= <- <-]; simpl; split_and!; try done.
    + right. right. exists e, (Some part). by eauto.
    + right. right. exists e, None. by eauto.
    + left. by eauto.
  - destruct (parquet_fault df) as [[e [part|]]|] eqn:Hp; simpl;
      intros [= <- <-]; simpl; split_and!; try done.
    + right. right. exists e, (Some part). by eauto.
    + right. right. exists e, None. by eauto.
    + left. by eauto.
  - intros [= <- <-]; simpl. split_and!; try done. right. left. by eauto.
Qed.

(** Every run of the function, by the way it ends. *)
Lemma write_dataframe_to_file_inv row root_dir fmt c w o w' :
  write_dataframe_to_file row root_dir fmt c w = (o, w') →
  dirs w' = {[abspath root_dir]} ∪ dirs w
  ∧ ∃ evs,
      trace w' = trace w ++ evs ∧ Forall (event_sound c) evs
      ∧ ev_stage <$> evs `prefix_of` filter (λ s, enabled c s = true) pipeline
      ∧ ((∃ e, o = Raise e ∧ evs = [] ∧ files w' = files w
               ∧ (table_of row = inl e ∨ row !! "content_hash" = None))
         ∨ ∃ df h,
             table_of row = inr df ∧ row !! "content_hash" = Some h
             ∧ chained df evs
             ∧ ((ev_stage <$> evs = filter (λ s, enabled c s = true) pipeline
                 ∧ Forall (λ ev, rejects c ev = false) evs
                 ∧ steps c pipeline df (last_table df evs)
                 ∧ (o = Return row → writer_fault fmt (last_table df evs) = None)
                 ∧ ((o = Return row ∧ (fmt = "csv" ∨ fmt = "parquet")
                     ∧ files w' =
                         <[output_path h (default "" (head (uuids w))) root_dir fmt
                            := mkFile fmt false (last_table df evs)]> (files w))
                    ∨ (o = Return row ∧ fmt ≠ "csv" ∧ fmt ≠ "parquet"
                       ∧ files w' = files w)
                    ∨ (∃ e left,
                         o = Raise e ∧ (fmt = "csv" ∨ fmt = "parquet")
                         ∧ writer_fault fmt (last_table df evs) = Some (e, left)
                         ∧ files w' =
                             match left with
                             | Some part =>
                                 <[output_path h (default "" (head (uuids w)))
                                     root_dir fmt := mkFile fmt false part]> (files w)
                             | None => files w
                             end)))
                ∨ (o = Return row ∧ files w' = files w
                   ∧ ∃ evs0 ev, evs = evs0 ++ [ev]
                                ∧ Forall (λ ev, rejects c ev = false) evs0
                                ∧ rejects c ev = true)
                ∨ (∃ e, o = Raise e ∧ files w' = files w
                        ∧ Forall (λ ev, rejects c ev = false) evs))).
Proof.
  rewrite write_dataframe_to_file_eq.
  destruct (table_of row) as [e|df] eqn:Ht.
  { intros [= <- <-]; simpl. split; [done|]. exists []. rewrite app_nil_r.
    split; [done|]. split; [constructor|]. split; [apply prefix_nil|].
    left. exists (first_error row e). split_and!; try done.
    destruct (first_error_cases row e) as [->|?]; auto. }
  destruct (row !! "content_hash") as [h|] eqn:Hh.
  2:{ intros [= <- <-]; simpl. split; [done|]. exists []. rewrite app_nil_r.
      split; [done|]. split; [constructor|]. split; [apply prefix_nil|].
      left. eexists. by eauto 10. }
  intros Hrun.
  apply run_stages_inv in Hrun as (evs & Hch & Hsound & Hpre & Hend).
  destruct Hend as [(w1 & Hk & [Hd Hf] & Htr & Hall & Hnr & Hsteps)
                   |[(-> & [Hd Hf] & Htr & Hrej)|(e & -> & [Hd Hf] & Htr & Hnr)]].
  - apply output_stage_inv in Hk as (Hd' & Htr' & Hout & Hpq).
    split; [by rewrite Hd', Hd|].
    exists evs. split; [by rewrite Htr', Htr|]. split; [done|]. split; [done|].
    right. exists df, h. split; [done|]. split; [done|]. split; [done|].
    left. split; [done|]. split; [done|]. split; [done|]. split; [done|].
    simpl in Hf. rewrite <- Hf. exact Hout.
  - split; [done|]. exists evs. split; [done|]. split; [done|]. split; [done|].
    right. exists df, h. split_and!; try done. right. left. by split_and!.
  - split; [done|]. exists evs. split; [done|]. split; [done|]. split; [done|].
    right. exists df, h. split_and!; try done. right. right. exists e. by split_and!.
Qed.

Lemma rejecting_marker_is_last c evs0 ev0 ev :
  Forall (λ ev, rejects c ev = false) evs0 → rejects c ev0 = true →
  ev ∈ evs0 ++ [ev0] → rejects c ev = true →
  ev = ev0 ∧ last (evs0 ++ [ev0]) = Some ev.
Proof.
  intros Hall Hr0 Hin Hr. rewrite last_snoc.
  apply elem_of_app in Hin as [Hin|Hin].
  - rewrite Forall_forall in Hall. specialize (Hall _ Hin). congruence.
  - apply list_elem_of_singleton in Hin. by subst.
Qed.

Lemma not_rejected c evs ev :
  Forall (λ ev, rejects c ev = false) evs → ev ∈ evs → rejects c ev = true → False.
Proof.
  rewrite Forall_forall. intros Hall Hin Hr. specialize (Hall _ Hin). congruence.
Qed.

(** A run that meets a rejecting marker has returned the record, written
    nothing, and left that marker last. *)
Lemma rejected_run row root_dir fmt c w o w' evs ev :
  write_dataframe_to_file row root_dir fmt c w = (o, w') →
  trace w' = trace w ++ evs →
  ev ∈ evs → rejects c ev = true →
  o = Return row ∧ last evs = Some ev ∧ files w' = files w.
Proof.
  intros Hrun Htr Hin Hr.
  apply write_dataframe_to_file_inv in Hrun as (_ & evs' & Htr' & _ & _ & Hend).
  rewrite Htr in Htr'. apply app_inv_head in Htr' as <-.
  destruct Hend as [(e & _ & -> & _)|(df & h & _ & _ & _ & Hend)].
  { by apply elem_of_nil in Hin. }
  destruct Hend as [(_ & Hnr & _)|[(-> & Hf & evs0 & ev0 & -> & Hnr & Hr0)
                                  |(e & _ & _ & Hnr)]].
  - destruct (not_rejected _ _ _ Hnr Hin Hr).
  - destruct (rejecting_marker_is_last _ _ _ _ Hnr Hr0 Hin Hr) as [-> Hlast].
    done.
  - destruct (not_rejected _ _ _ Hnr Hin Hr).
Qed.

Lemma run_markers row root_dir fmt c w o w' evs :
  write_dataframe_to_file row root_dir fmt c w = (o, w') →
  trace w' = trace w ++ evs →
  Forall (event_sound c) evs
  ∧ ev_stage <$> evs `prefix_of` filter (λ s, enabled c s = true) pipeline.
Proof.
  intros Hrun Htr.
  apply write_dataframe_to_file_inv in Hrun as (_ & evs' & Htr' & Hs & Hp & _).
  rewrite Htr in Htr'. by apply app_inv_head in Htr' as <-.
Qed.

(** C3: when a row filter (value length, substring, code, PII) leaves the
    table with zero rows (its marker holds the table it received and the
    table its filter made of it), the function returns the original record
    at once: the marker of that filter is the last one, so no later stage
    is applied, and no file is written. *)
Theorem early_exit_on_empty row root_dir fmt c w o w' evs ev :
  write_dataframe_to_file row root_dir fmt c w = (o, w') →
  trace w' = trace w ++ evs →
  ev ∈ evs → is_row_filter (ev_stage ev) = true → nrows (ev_out ev) = 0 →
  stage_op c (ev_stage ev) (ev_in ev) (ev_out ev)
  ∧ o = Return row ∧ last evs = Some ev ∧ files w' = files w.
Proof.
  intros Hrun Htr Hin Hrf Hz. split.
  { destruct (run_markers _ _ _ _ _ _ _ _ Hrun Htr) as [Hsound _].
    rewrite Forall_forall in Hsound. by apply Hsound. }
  eapply rejected_run; try done.
  unfold rejects. destruct (ev_stage ev); try done; by apply bool_decide_eq_true.
Qed.

(** C5: with a minimum row count configured, a table that reaches the
    check (after the filters and the deduplication) with strictly fewer
    rows makes the function return the original record; the check is the
    last stage to run and no file is written. *)
Theorem min_rows_rejects row root_dir fmt c w o w' evs ev m :
  write_dataframe_to_file row root_dir fmt c w = (o, w') →
  trace w' = trace w ++ evs →
  min_rows c = Some m →
  ev ∈ evs → ev_stage ev = MinRowCheck → nrows (ev_out ev) < m →
  ev_out ev = ev_in ev
  ∧ o = Return row ∧ last evs = Some ev ∧ files w' = files w.
Proof.
  intros Hrun Htr Hm Hin Hst Hlt. split.
  { destruct (run_markers _ _ _ _ _ _ _ _ Hrun Htr) as [Hsound _].
    rewrite Forall_forall in Hsound. specialize (Hsound _ Hin).
    unfold event_sound in Hsound. by rewrite Hst in Hsound. }
  eapply rejected_run; try done.
  unfold rejects. rewrite Hst, Hm. by apply bool_decide_eq_true.
Qed.

(** *** Sampling without replacement *)

Lemma length_sample_list {A} rng n (l : list A) :
  n ≤ length l → length (sample_list rng n l) = n.
Proof.
  revert rng l. induction n as [|n IH]; intros rng l Hn; [done|].
  destruct l as [|x0 l]; [simpl in Hn; lia|].
  cbn [sample_list]. cbn [length]. f_equal. apply IH.
  rewrite length_delete; [simpl in *; lia|].
  apply lookup_lt_is_Some, Nat.mod_upper_bound. done.
Qed.

Lemma sample_list_submseteq {A} rng n (l : list A) : sample_list rng n l ⊆+ l.
Proof.
  revert rng l. induction n as [|n IH]; intros rng l; [apply submseteq_nil_l|].
  destruct l as [|x0 l]; [done|].
  cbn [sample_list].
  set (i := default 0 (head rng) `mod` length (x0 :: l)).
  assert (is_Some ((x0 :: l) !! i)) as [y Hy].
  { apply lookup_lt_is_Some, Nat.mod_upper_bound. done. }
  rewrite Hy. cbn [default].
  rewrite (delete_Permutation (x0 :: l) i y Hy) at 2.
  apply submseteq_skip, IH.
Qed.

Lemma df_sample_inv rng df n df' :
  df_sample rng df n = inr df' →
  nrows df' = n ∧ df_rows df' ⊆+ df_rows df ∧ df_columns df' = df_columns df.
Proof.
  unfold df_sample. case_bool_decide as Hn; [|done].
  intros [= <-]. unfold nrows in *. cbn [df_rows df_columns].
  split; [by apply length_sample_list|]. split; [apply sample_list_submseteq|done].
Qed.

(** *** The order of the stages *)

Lemma prefix_sublist {A} (l k : list A) : l `prefix_of` k → l `sublist_of` k.
Proof. intros [k' ->]. by apply sublist_inserts_r. Qed.

(** Row reduction is the last stage: nothing is marked after it. *)
Lemma row_reduction_marker_last (evs : list event) ev :
  ev_stage <$> evs `sublist_of` pipeline →
  ev ∈ evs → ev_stage ev = RowReduction → last evs = Some ev.
Proof.
  intros Hsub (e1 & e2 & ->)%list_elem_of_split Hst.
  destruct e2 as [|ev2 e2 _] using rev_ind; [by rewrite last_snoc|].
  exfalso. rewrite fmap_app, fmap_cons, fmap_app, Hst in Hsub. simpl in Hsub.
  change pipeline with
    ([ColumnValidation; ColumnReduction; ValueLengthFilter; SubstringFilter;
      CodeFilter; PIIFilter; Deduplication; MinRowCheck] ++ [RowReduction]) in Hsub.
  apply sublist_app_r in Hsub as (l1 & l2 & Heq & Hl1 & Hl2).
  assert (RowReduction ∉ l1) as Hnot.
  { intros Hin. eapply elem_of_sublist in Hin; [|exact Hl1].
    repeat (apply elem_of_cons in Hin as [Hin|Hin]; [done|]).
    by apply elem_of_nil in Hin. }
  apply sublist_cons_r in Hl2 as [Hl2|(l' & -> & Hl')].
  - apply sublist_nil_r in Hl2 as ->. rewrite app_nil_r in Heq. subst l1.
    apply Hnot. apply elem_of_app. right. apply elem_of_cons. by left.
  - apply sublist_nil_r in Hl' as ->.
    rewrite app_comm_cons, app_assoc in Heq.
    apply app_inj_tail in Heq as [<- _].
    apply Hnot. apply elem_of_app. right. apply elem_of_cons. by left.
Qed.

(** C7: when row reduction is enabled and the table that reaches it has
    strictly more rows than [max_output_rows], the stage leaves a sample
    without replacement of exactly that many rows; a sample of zero rows
    (the maximum is then zero) makes the function return the original
    record without writing; a table at or below the maximum is left as it
    is.  Row reduction being the last stage, the table it leaves is the
    one written. *)
Theorem row_reduction_exact row root_dir fmt c w o w' evs ev :
  write_dataframe_to_file row root_dir fmt c w = (o, w') →
  trace w' = trace w ++ evs →
  ev ∈ evs → ev_stage ev = RowReduction →
  drop_extra_rows c = true
  ∧ (max_output_rows c < nrows (ev_in ev) →
       nrows (ev_out ev) = max_output_rows c
       ∧ df_rows (ev_out ev) ⊆+ df_rows (ev_in ev)
       ∧ df_columns (ev_out ev) = df_columns (ev_in ev)
       ∧ (nrows (ev_out ev) = 0 →
            max_output_rows c = 0 ∧ o = Return row ∧ files w' = files w))
  ∧ (nrows (ev_in ev) ≤ max_output_rows c → ev_out ev = ev_in ev)
  ∧ last evs = Some ev
  ∧ (o = Return row → fmt = "csv" ∨ fmt = "parquet" →
     nrows (ev_in ev) ≤ max_output_rows c ∨ nrows (ev_out ev) ≠ 0 →
     ∃ path, files w' = <[path := mkFile fmt false (ev_out ev)]> (files w)).
Proof.
  intros Hrun Htr Hin Hst.
  destruct (run_markers _ _ _ _ _ _ _ _ Hrun Htr) as [Hsound Hpre].
  assert (last evs = Some ev) as Hlast.
  { apply row_reduction_marker_last; [|done..].
    etrans; [apply prefix_sublist, Hpre|apply sublist_filter]. }
  assert (drop_extra_rows c = true) as Hen.
  { assert (ev_stage ev ∈ ev_stage <$> evs) as Hs by (by apply list_elem_of_fmap_2).
    destruct Hpre as [k Hk]. rewrite Hst in Hs.
    assert (RowReduction ∈ filter (λ s, enabled c s = true) pipeline) as Hf.
    { rewrite Hk. apply elem_of_app. by left. }
    by apply list_elem_of_filter in Hf as [Hf _]. }
  pose proof Hsound as Hop. rewrite Forall_forall in Hop. specialize (Hop _ Hin).
  unfold event_sound in Hop. rewrite Hst in Hop. simpl in Hop.
  split; [done|]. split; [|split; [|split; [done|]]].
  - intros Hgt. rewrite bool_decide_eq_true_2 in Hop by done.
    destruct Hop as [r Hr]. apply df_sample_inv in Hr as (Hn & Hsub & Hc).
    split; [done|]. split; [done|]. split; [done|].
    intros Hz. split; [congruence|].
    assert (rejects c ev = true) as Hrej.
    { unfold rejects. rewrite Hst. apply andb_true_iff.
      split; by apply bool_decide_eq_true. }
    destruct (rejected_run _ _ _ _ _ _ _ _ _ Hrun Htr Hin Hrej) as (? & _ & ?).
    done.
  - intros Hle. rewrite bool_decide_eq_false_2 in Hop by lia. done.
  - intros -> Hfmt Hok.
    assert (rejects c ev = false) as Hrej.
    { unfold rejects. rewrite Hst. apply andb_false_iff.
      destruct Hok; [left|right]; apply bool_decide_eq_false; [lia|done]. }
    apply write_dataframe_to_file_inv in Hrun as (_ & evs' & Htr' & _ & _ & Hend).
    rewrite Htr in Htr'. apply app_inv_head in Htr' as <-.
    destruct Hend as [(e & ? & _)|(df & h & _ & _ & _ & Hend)]; [done|].
    destruct Hend as [(_ & _ & _ & _ & [(_ & _ & Hf)|[(_ & Hn1 & Hn2 & _)|(e & lf & ? & _)]])
                     |[(_ & _ & evs0 & ev0 & -> & _ & Hr0)|(e & ? & _)]]; try done.
    + eexists. rewrite Hf. unfold last_table. by rewrite Hlast.
    + by destruct Hfmt.
    + rewrite last_snoc in Hlast. simplify_eq. congruence.
Qed.

(** A run that does not raise ends in [return row]. *)
Lemma outcome_is_return row root_dir fmt c w o w' :
  write_dataframe_to_file row root_dir fmt c w = (o, w') →
  (∀ e, o ≠ Raise e) →
  o = Return row.
Proof.
  intros Hrun Hne.
  apply write_dataframe_to_file_inv in Hrun as (_ & evs & _ & _ & _ & Hend).
  destruct Hend as [(e & -> & _)|(df & h & _ & _ & _ & Hend)];
    [by destruct (Hne e)|].
  destruct Hend as [(_ & _ & _ & _ & [(-> & _)|[(-> & _)|(e & lf & -> & _)]])
                   |[(-> & _)|(e & -> & _)]]; try done.
  - by destruct (Hne e).
  - by destruct (Hne e).
Qed.

(** C10: on every path of [write_dataframe_to_file] that does not raise
    (a write, an early exit of a row filter, the minimum row count, an
    empty sample) the value returned is the input record itself, with
    every field as it was; the function never ends without a [return]. *)
Theorem returns_input_record row root_dir fmt c w o w' :
  write_dataframe_to_file row root_dir fmt c w = (o, w') →
  (∀ e, o ≠ Raise e) →
  o = Return row ∧ ∀ r, o = Return r → ∀ key, r !! key = row !! key.
Proof.
  intros Hrun Hne. pose proof (outcome_is_return _ _ _ _ _ _ _ Hrun Hne) as ->.
  split; [done|]. by intros r [= ->].
Qed.

(** C4, as the code has it: the stages that run are the enabled ones, in
    the order of [pipeline], up to the first one that rejects the record
    or raises; a rejecting stage is the last to run; when no stage rejects
    and nothing is raised, every enabled stage has run and no other.  A
    stage is enabled when its guard is true in Python: a flag that is set,
    a value-length threshold that is neither [None] nor [0], a non-empty
    substring list, a minimum row count that is not [None]. *)
Theorem stage_order row root_dir fmt c w o w' evs :
  write_dataframe_to_file row root_dir fmt c w = (o, w') →
  trace w' = trace w ++ evs →
  ev_stage <$> evs `prefix_of` filter (λ s, enabled c s = true) pipeline
  ∧ (∀ ev, ev ∈ evs → rejects c ev = true → last evs = Some ev)
  ∧ ((∀ e, o ≠ Raise e) → Forall (λ ev, rejects c ev = false) evs →
     ev_stage <$> evs = filter (λ s, enabled c s = true) pipeline).
Proof.
  intros Hrun Htr.
  split; [by eapply run_markers|]. split.
  - intros ev Hin Hr. by eapply rejected_run.
  - intros Hne Hnr.
    apply write_dataframe_to_file_inv in Hrun as (_ & evs' & Htr' & _ & _ & Hend).
    rewrite Htr in Htr'. apply app_inv_head in Htr' as <-.
    destruct Hend as [(e & -> & _)|(df & h & _ & _ & _ & Hend)];
      [by destruct (Hne e)|].
    destruct Hend as [(Hall & _)|[(_ & _ & evs0 & ev0 & -> & _ & Hr0)|(e & -> & _)]].
    + done.
    + exfalso. eapply not_rejected; [exact Hnr| |exact Hr0].
      apply elem_of_app. right. by apply list_elem_of_singleton.
    + by destruct (Hne e).
Qed.

(** *** The dispatcher *)

(** The per-element call never raises for a record that carries its
    content hash: it returns the element, and a failure of the task is
    logged with the hash and the error. *)
Lemma _write_element_inv self element w content_hash :
  element !! "content_hash" = Some content_hash →
  ∃ w', _write_element self element w = (Return element, w')
    ∧ ∀ o1 w1,
        write_dataframe_to_file element (base_path self) (output_format self)
          (config self) w = (o1, w1) →
        dirs w' = dirs w1 ∧ files w' = files w1 ∧ trace w' = trace w1
        ∧ match o1 with
          | Raise e =>
              ∃ pre sep, log w' = log w1 ++ [pre +:+ str content_hash +:+ sep
                                             +:+ exn_msg e]
          | _ => w' = w1
          end.
Proof.
  intros Hh. unfold _write_element, try_except, bind, call.
  destruct (write_dataframe_to_file element (base_path self) (output_format self)
              (config self) w) as [o1 w1] eqn:Hrun.
  destruct o1 as [r|r|e].
  - apply outcome_is_return in Hrun; done.
  - pose proof Hrun as Hr. apply outcome_is_return in Hr; [|done].
    simplify_eq. simpl. eexists. split; [done|]. by intros ? ? [= <- <-].
  - unfold getitem. rewrite Hh. unfold ret, logging_warning, return_.
    case_bool_decide; simpl; (eexists; split; [done|]); intros ? ? [= <- <-];
      simpl; (split_and!; [done..|]); by eauto.
Qed.

(** C1: for a record of a batch (a mapping that carries its
    [content_hash]), whatever is raised while the record is processed is
    caught by [_write_element], logged with the content hash, and turned
    into the return of the original record; the call itself never raises,
    so [write] goes through the whole batch and returns its records. *)
Theorem failure_containment self w :
  (∀ element content_hash,
     element !! "content_hash" = Some content_hash →
     ∃ w', _write_element self element w = (Return element, w')
       ∧ ∀ e w1,
           write_dataframe_to_file element (base_path self) (output_format self)
             (config self) w = (Raise e, w1) →
           files w' = files w1
           ∧ ∃ pre sep, log w' = log w1 ++ [pre +:+ str content_hash +:+ sep
                                          +:+ exn_msg e])
  ∧ (∀ dataset,
       Forall (λ element, is_Some (element !! "content_hash")) dataset →
       ∃ w', write self dataset w = (Normal dataset, w')).
Proof.
  split.
  - intros element h Hh.
    destruct (_write_element_inv self element w h Hh) as (w' & Hw & Hlog).
    exists w'. split; [done|]. intros e w1 Hrun.
    by destruct (Hlog _ _ Hrun) as (_ & ? & _ & ?).
  - intros dataset Hall. revert w. unfold write.
    induction Hall as [|element rest [h Hh] _ IH]; intros w; [by eexists|].
    destruct (_write_element_inv self element w h Hh) as (w1 & Hw & _).
    destruct (IH w1) as (w2 & Hrest).
    exists w2. cbn [dataset_map]. unfold bind, call, ret. by rewrite Hw, Hrest.
Qed.

(** C2, as the code has it: for a record with no ["df"] whose
    [arrow_bytes] do not decode, [write_dataframe_to_file] raises the
    decoding error (it is not turned into a return of the record there, no
    stage runs and nothing is written); [_write_element] then catches it
    as it does any exception, logs it with the content hash, and returns
    the original record. *)
Theorem decode_failure_is_raised_then_contained self element w b :
  element !! "df" = None →
  element !! "arrow_bytes" = Some (PyBytes b) →
  decode_arrow b = None →
  (∃ e w1,
     write_dataframe_to_file element (base_path self) (output_format self)
       (config self) w = (Raise e, w1)
     ∧ exn_cls e = ArrowInvalid ∧ files w1 = files w ∧ trace w1 = trace w)
  ∧ (∀ content_hash,
       element !! "content_hash" = Some content_hash →
       ∃ w', _write_element self element w = (Return element, w')
         ∧ files w' = files w
         ∧ ∃ pre sep, last (log w')
                      = Some (pre +:+ str content_hash +:+ sep
                              +:+ "could not read arrow bytes")).
Proof.
  intros Hdf Hb Hdec.
  assert (table_of element = inl (mkExn ArrowInvalid "could not read arrow bytes"))
    as Ht.
  { unfold table_of. rewrite Hdf, Hb. simpl. by rewrite Hdec. }
  assert (write_dataframe_to_file element (base_path self) (output_format self)
            (config self) w
          = (Raise (mkExn ArrowInvalid "could not read arrow bytes"),
             after_prelude (base_path self) w)) as Hrun.
  { rewrite write_dataframe_to_file_eq, Ht. unfold first_error. by rewrite Hdf. }
  split.
  - eexists _, _. split; [exact Hrun|]. done.
  - intros h Hh.
    destruct (_write_element_inv self element w h Hh) as (w' & Hw & Hlog).
    exists w'. split; [done|].
    destruct (Hlog _ _ Hrun) as (_ & Hf & _ & pre & sep & Hl).
    split; [by rewrite Hf|]. rewrite Hl, last_snoc. by eexists _, _.
Qed.

(** *** Substrings *)

Lemma append_nil_l s : "" +:+ s = s.
Proof. reflexivity. Qed.

Lemma append_cons_l a p s : String a p +:+ s = String a (p +:+ s).
Proof. reflexivity. Qed.

Lemma prefix_spec p s : String.prefix p s = true ↔ ∃ post, s = p +:+ post.
Proof.
  revert s. induction p as [|a p IH]; intros s.
  - split; [by exists s|]. intros _. by destruct s.
  - destruct s as [|b s].
    + split; [done|]. intros [post Hp]. by rewrite append_cons_l in Hp.
    + change (String.prefix (String a p) (String b s))
        with (if Ascii.ascii_dec a b then String.prefix p s else false).
      destruct (Ascii.ascii_dec a b) as [->|Hne].
      * rewrite IH. split; intros [post Hp]; exists post.
        -- by rewrite append_cons_l, Hp.
        -- rewrite append_cons_l in Hp. congruence.
      * split; [done|]. intros [post Hp]. rewrite append_cons_l in Hp. congruence.
Qed.

Lemma contains_unfold sub s :
  contains sub s
  = String.prefix sub s
    || match s with EmptyString => false | String _ s' => contains sub s' end.
Proof. by destruct s. Qed.

(** [contains] is the substring relation. *)
Lemma contains_spec sub s :
  contains sub s = true ↔ ∃ pre post, s = pre +:+ sub +:+ post.
Proof.
  split.
  - induction s as [|a s IH]; rewrite contains_unfold, orb_true_iff;
      intros [Hp|Hc].
    + apply prefix_spec in Hp as [post ->]. by exists "", post.
    + done.
    + apply prefix_spec in Hp as [post Hp]. by exists "", post.
    + destruct (IH Hc) as (pre & post & ->). by exists (String a pre), post.
  - intros (pre & post & ->). induction pre as [|a pre IH].
    + rewrite append_nil_l, contains_unfold, orb_true_iff. left.
      apply prefix_spec. by exists post.
    + rewrite append_cons_l, contains_unfold, orb_true_iff. by right.
Qed.

(** *** Row filters *)

Lemma try_map_inr {A B} (f : A → result B) l bs :
  try_map f l = inr bs ↔ Forall2 (λ x b, f x = inr b) l bs.
Proof.
  revert bs. induction l as [|x l IH]; intros bs; simpl.
  - split; [intros [= <-]; constructor|by inversion 1].
  - split.
    + destruct (f x) as [e|b] eqn:Hx; simpl; [done|].
      destruct (try_map f l) as [e|bs'] eqn:Hl; simpl; [done|].
      intros [= <-]. constructor; [done|]. by apply IH.
    + intros Hf. inversion Hf as [|? b ? bs' Hb Hrest]; subst.
      rewrite Hb. simpl. apply IH in Hrest. by rewrite Hrest.
Qed.

Lemma filter_zip_matches {A} (m : A → result bool) rows ms :
  Forall2 (λ r b, m r = inr b) rows ms →
  (fst <$> filter (λ p, snd p = false) (zip rows ms))
  = filter (λ r, m r = inr false) rows.
Proof.
  induction 1 as [|r b rows ms Hr _ IH]; [done|].
  simpl. rewrite !filter_cons. simpl.
  destruct b; repeat case_decide; simplify_eq; simpl;
    try congruence; by f_equal.
Qed.

(** What a row filter returns when it returns: the columns, and the rows
    on which no inspected value matched, in order; [filter_fn] was
    evaluated on every row. *)
Lemma apply_row_based_filter_inv df f so df' :
  apply_row_based_filter df f so = inr df' →
  df_columns df' = df_columns df
  ∧ df_rows df' = filter (λ r, row_matches (df_columns df) so f r = inr false)
                    (df_rows df)
  ∧ Forall (λ r, ∃ b, row_matches (df_columns df) so f r = inr b) (df_rows df).
Proof.
  unfold apply_row_based_filter.
  destruct (try_map _ (df_rows df)) as [e|ms] eqn:Hm; simpl; [done|].
  intros [= <-]. cbn [df_columns df_rows].
  apply try_map_inr in Hm. split; [done|]. split.
  - by apply filter_zip_matches.
  - clear -Hm. induction Hm; constructor; eauto.
Qed.

Lemma apply_row_based_filter_ok df f so :
  Forall (λ r, ∃ b, row_matches (df_columns df) so f r = inr b) (df_rows df) →
  apply_row_based_filter df f so
  = inr {| df_columns := df_columns df;
           df_rows := filter (λ r, row_matches (df_columns df) so f r = inr false)
                        (df_rows df) |}.
Proof.
  intros Hall. unfold apply_row_based_filter.
  assert (∃ ms, Forall2 (λ r b, row_matches (df_columns df) so f r = inr b)
                  (df_rows df) ms) as [ms Hms].
  { induction Hall as [|r rows [b Hb] _ [ms IH]]; [by exists []|].
    exists (b :: ms). by constructor. }
  pose proof Hms as Htm. apply try_map_inr in Htm. rewrite Htm. simpl.
  by rewrite (filter_zip_matches _ _ _ Hms).
Qed.

(** A filter function that never raises decides each row by its cells. *)
Lemma row_matches_total cols so f (g : value → bool) r :
  (∀ x, f x = inr (g x)) →
  row_matches cols so f r = inr (existsb g (filter_cells cols so r)).
Proof.
  intros Hf. unfold row_matches.
  assert (try_map f (filter_cells cols so r) = inr (g <$> filter_cells cols so r))
    as ->.
  { induction (filter_cells cols so r) as [|x l IH]; [done|].
    simpl. rewrite Hf. simpl. by rewrite IH. }
  simpl. f_equal. induction (filter_cells cols so r) as [|x l IH]; [done|].
  simpl. f_equal. exact IH.
Qed.

Lemma existsb_false_iff {A} (f : A → bool) l :
  existsb f l = false ↔ ∀ x, x ∈ l → f x = false.
Proof.
  induction l as [|y l IH]; simpl.
  - split; [|done]. intros _ x Hx. by apply elem_of_nil in Hx.
  - rewrite orb_false_iff, IH. split.
    + intros [Hy Hl] x [->|Hx]%elem_of_cons; auto.
    + intros Hall. split; [|intros x Hx]; apply Hall, elem_of_cons; auto.
Qed.

(** C6: with a non-empty list of forbidden substrings, the substring
    stage keeps the columns and leaves, in order, rows of the table such
    that no value of a string-typed column that can be cast to text
    contains a forbidden substring; and a row is dropped only for such a
    value: a value that cannot be cast to text never makes this stage drop
    its row. *)
Theorem substring_filter_sound row c df w :
  filter_rows_containing_substrings c ≠ [] →
  ∃ df' o w',
    substring_stage row c df w = (o, w')
    ∧ trace w' = trace w ++ [mkEvent SubstringFilter df df']
    ∧ (o = Normal df' ∨ (o = Return row ∧ nrows df' = 0))
    ∧ df_columns df' = df_columns df
    ∧ df_rows df' `sublist_of` df_rows df
    ∧ (∀ r v s substr,
         r ∈ df_rows df' →
         v ∈ filter_cells (df_columns df) true r → py_str v = inr s →
         substr ∈ filter_rows_containing_substrings c →
         ¬ ∃ pre post, s = pre +:+ substr +:+ post)
    ∧ (∀ r,
         r ∈ df_rows df →
         (∀ v s substr,
            v ∈ filter_cells (df_columns df) true r → py_str v = inr s →
            substr ∈ filter_rows_containing_substrings c →
            ¬ ∃ pre post, s = pre +:+ substr +:+ post) →
         r ∈ df_rows df').
Proof.
  intros Hne.
  set (g := λ x : value,
         match py_str x with
         | inr s => existsb (λ substr, contains substr s)
                      (filter_rows_containing_substrings c)
         | inl _ => false
         end).
  assert (∀ x, _contains_substring_filter_fn c x = inr (g x)) as Hg.
  { intros x. unfold _contains_substring_filter_fn, g. by destruct (py_str x). }
  assert (∀ r, row_matches (df_columns df) true (_contains_substring_filter_fn c) r
               = inr (existsb g (filter_cells (df_columns df) true r))) as Hrm.
  { intros r. by apply row_matches_total. }
  pose proof (apply_row_based_filter_ok df (_contains_substring_filter_fn c) true)
    as Hok.
  rewrite Forall_forall in Hok. specialize (Hok (λ r _, ex_intro _ _ (Hrm r))).
  set (df' := {| df_columns := df_columns df;
                 df_rows := filter (λ r, row_matches (df_columns df) true
                                           (_contains_substring_filter_fn c) r
                                         = inr false) (df_rows df) |}) in *.
  assert (∀ r, r ∈ df_rows df' ↔
               r ∈ df_rows df
               ∧ ∀ v, v ∈ filter_cells (df_columns df) true r → g v = false) as Hin.
  { intros r. unfold df'. cbn [df_rows]. rewrite list_elem_of_filter, Hrm.
    rewrite <- existsb_false_iff. split; intros [? ?]; split; congruence. }
  exists df'.
  destruct (bool_decide (nrows df' = 0)) eqn:Hz.
  - exists (Return row). eexists.
    split.
    { unfold substring_stage.
      destruct (filter_rows_containing_substrings c) eqn:Hs; [done|].
      unfold bind at 1. rewrite Hok. unfold lift, ret.
      unfold bind, mark. rewrite Hz. unfold logging_warning, return_. done. }
    cbn [trace]. split; [done|]. split.
    { right. split; [done|]. by apply bool_decide_eq_true in Hz. }
    split; [done|]. split; [apply sublist_filter|]. split.
    + intros r v s substr [_ Hr]%Hin Hv Hs Hsub Hc.
      apply contains_spec in Hc. specialize (Hr v Hv). unfold g in Hr.
      rewrite Hs in Hr. rewrite existsb_false_iff in Hr.
      specialize (Hr _ Hsub). congruence.
    + intros r Hr Hclean. apply Hin. split; [done|]. intros v Hv. unfold g.
      destruct (py_str v) as [e|s] eqn:Hs; [done|].
      apply existsb_false_iff. intros substr Hsub.
      destruct (contains substr s) eqn:Hc; [|done].
      apply contains_spec in Hc. by destruct (Hclean v s substr Hv Hs Hsub).
  - exists (Normal df'). eexists.
    split.
    { unfold substring_stage.
      destruct (filter_rows_containing_substrings c) eqn:Hs; [done|].
      unfold bind at 1. rewrite Hok. unfold lift, ret.
      unfold bind, mark. rewrite Hz. done. }
    cbn [trace]. split; [done|]. split; [by left|].
    split; [done|]. split; [apply sublist_filter|]. split.
    + intros r v s substr [_ Hr]%Hin Hv Hs Hsub Hc.
      apply contains_spec in Hc. specialize (Hr v Hv). unfold g in Hr.
      rewrite Hs in Hr. rewrite existsb_false_iff in Hr.
      specialize (Hr _ Hsub). congruence.
    + intros r Hr Hclean. apply Hin. split; [done|]. intros v Hv. unfold g.
      destruct (py_str v) as [e|s] eqn:Hs; [done|].
      apply existsb_false_iff. intros substr Hsub.
      destruct (contains substr s) eqn:Hc; [|done].
      apply contains_spec in Hc. by destruct (Hclean v s substr Hv Hs Hsub).
Qed.

(** *** Running the pipeline again on a table it produced *)

Lemma filter_all {A} (P : A → Prop) `{∀ x, Decision (P x)} l :
  Forall P l → filter P l = l.
Proof.
  induction 1 as [|x l Hx _ IH]; [done|]. by rewrite filter_cons_True, IH.
Qed.

Lemma keep_first_sublist {A} `{EqDecision A} (l : list A) :
  keep_first l `sublist_of` l.
Proof.
  induction l as [|x l IH]; [done|]. simpl. apply sublist_skip.
  etrans; [apply sublist_filter|done].
Qed.

Lemma keep_first_NoDup {A} `{EqDecision A} (l : list A) : NoDup (keep_first l).
Proof.
  induction l as [|x l IH]; simpl; [constructor|].
  apply NoDup_cons. split; [|by apply NoDup_filter].
  intros [Hx _]%list_elem_of_filter. done.
Qed.

Lemma keep_first_id {A} `{EqDecision A} (l : list A) : NoDup l → keep_first l = l.
Proof.
  induction 1 as [|x l Hx _ IH]; [done|]. simpl. rewrite IH. f_equal.
  apply filter_all, Forall_forall. intros y Hy ->. done.
Qed.

Lemma NoDup_submseteq_inv {A} (l k : list A) : l ⊆+ k → NoDup k → NoDup l.
Proof.
  intros [k' Hk]%submseteq_Permutation Hnd. rewrite Hk in Hnd.
  by apply NoDup_app in Hnd as [? _].
Qed.

Lemma nrows_zero df : nrows df = 0 ↔ df_rows df = [].
Proof. unfold nrows. by destruct (df_rows df). Qed.

Lemma drop_duplicates_inv df :
  df_columns (drop_duplicates df) = df_columns df
  ∧ df_rows (drop_duplicates df) `sublist_of` df_rows df
  ∧ (nrows df ≠ 0 → nrows (drop_duplicates df) ≠ 0)
  ∧ (ncols (drop_duplicates df) = 0 ∨ NoDup (df_rows (drop_duplicates df))).
Proof.
  unfold drop_duplicates, df_empty.
  destruct (bool_decide (nrows df = 0)) eqn:Hr; simpl.
  { apply bool_decide_eq_true in Hr. split_and!; [done..|].
    right. apply nrows_zero in Hr as ->. constructor. }
  destruct (bool_decide (ncols df = 0)) eqn:Hc; simpl.
  { apply bool_decide_eq_true in Hc. split_and!; [done..|]. by left. }
  split_and!; [done|apply keep_first_sublist| |right; apply keep_first_NoDup].
  unfold nrows. simpl. by destruct (df_rows df).
Qed.

Lemma drop_duplicates_settled df :
  ncols df = 0 ∨ NoDup (df_rows df) → drop_duplicates df = df.
Proof.
  unfold drop_duplicates, df_empty. intros [Hc|Hnd].
  - rewrite (bool_decide_eq_true_2 (ncols df = 0)) by done.
    by rewrite orb_true_r.
  - destruct (_ || _); [done|]. rewrite keep_first_id by done. by destruct df.
Qed.

Lemma apply_row_based_filter_settled f df :
  clean f df → apply_row_based_filter df f true = inr df.
Proof.
  intros Hc. rewrite apply_row_based_filter_ok.
  - rewrite filter_all by exact Hc. by destruct df.
  - eapply Forall_impl; [exact Hc|]. intros r Hr. by exists false.
Qed.

Lemma filtered_is_clean f df df' :
  apply_row_based_filter df f true = inr df' →
  df_columns df' = df_columns df
  ∧ df_rows df' `sublist_of` df_rows df
  ∧ clean f df'.
Proof.
  intros (Hc & Hr & _)%apply_row_based_filter_inv.
  split; [done|]. split; [rewrite Hr; apply sublist_filter|].
  unfold clean. rewrite Hc, Hr. apply Forall_forall.
  by intros r [? _]%list_elem_of_filter.
Qed.

Lemma length_omap_le {A B} (f : A → option B) l : length (omap f l) ≤ length l.
Proof. induction l as [|x l IH]; [done|]. csimpl. destruct (f x); simpl; lia. Qed.

Lemma sample_columns_if_needed_ncols r df n :
  ncols (sample_columns_if_needed r df n) ≤ n.
Proof.
  unfold sample_columns_if_needed. case_bool_decide as Hn; [|lia].
  unfold ncols at 1, take_columns. cbn [df_columns].
  etrans; [apply length_omap_le|].
  rewrite length_sample_list; [done|]. rewrite length_seq. lia.
Qed.

Lemma rows_kept_refl df : rows_kept df df.
Proof. by split_and!. Qed.

Lemma rows_kept_trans d1 d2 d3 : rows_kept d1 d2 → rows_kept d2 d3 → rows_kept d1 d3.
Proof.
  intros (Hc1 & Hr1 & Hn1) (Hc2 & Hr2 & Hn2).
  split_and!; [congruence|by etrans|auto].
Qed.

(** A row stage that lets the table through keeps its columns and some
    of its rows. *)
Lemma row_stage_kept c s d d' :
  row_stage s = true →
  (if enabled c s
   then stage_op c s d d' ∧ rejects c (mkEvent s d d') = false
   else d' = d) →
  rows_kept d d'.
Proof.
  intros Hs. destruct (enabled c s) eqn:En; [|intros ->; apply rows_kept_refl].
  intros [Hop Hrej]. unfold rejects in Hrej. cbn [ev_stage ev_in ev_out] in Hrej.
  destruct s; try done; simpl in Hop.
  - destruct Hop as (n & _ & Hop).
    apply filtered_is_clean in Hop as (Hc & Hsub & _).
    apply bool_decide_eq_false in Hrej.
    split_and!; [done|by apply sublist_submseteq|done].
  - apply filtered_is_clean in Hop as (Hc & Hsub & _).
    apply bool_decide_eq_false in Hrej.
    split_and!; [done|by apply sublist_submseteq|done].
  - apply filtered_is_clean in Hop as (Hc & Hsub & _).
    apply bool_decide_eq_false in Hrej.
    split_and!; [done|by apply sublist_submseteq|done].
  - apply filtered_is_clean in Hop as (Hc & Hsub & _).
    apply bool_decide_eq_false in Hrej.
    split_and!; [done|by apply sublist_submseteq|done].
  - subst d'. destruct (drop_duplicates_inv d) as (Hc & Hsub & Hn & _).
    split_and!; [done|by apply sublist_submseteq|done].
  - subst d'. apply rows_kept_refl.
  - case_bool_decide as Hgt; [|subst d'; apply rows_kept_refl].
    destruct Hop as [r Hop]. apply df_sample_inv in Hop as (Hn & Hsub & Hc).
    simpl in Hrej. apply bool_decide_eq_false in Hrej.
    split_and!; done.
Qed.

(** What a stage that ran and did not reject has established. *)
Lemma stage_settles c s d d' :
  s ≠ ColumnValidation → s ≠ MinRowCheck →
  stage_op c s d d' → rejects c (mkEvent s d d') = false →
  settled c s d'.
Proof.
  intros Hs1 Hs2 Hop Hrej. unfold rejects in Hrej.
  cbn [ev_stage ev_in ev_out] in Hrej.
  destruct s; try done; simpl in *.
  - destruct Hop as [r ->]. apply sample_columns_if_needed_ncols.
  - destruct Hop as (n & Hn & Hop).
    apply filtered_is_clean in Hop as (_ & _ & Hc).
    apply bool_decide_eq_false in Hrej. split; [done|].
    intros n' Hn'. by simplify_eq.
  - apply filtered_is_clean in Hop as (_ & _ & Hc).
    apply bool_decide_eq_false in Hrej. done.
  - apply filtered_is_clean in Hop as (_ & _ & Hc).
    apply bool_decide_eq_false in Hrej. done.
  - apply filtered_is_clean in Hop as (_ & _ & Hc).
    apply bool_decide_eq_false in Hrej. done.
  - subst d'. by destruct (drop_duplicates_inv d) as (_ & _ & _ & ?).
  - case_bool_decide as Hgt; [|subst d'; lia].
    destruct Hop as [r Hop]. apply df_sample_inv in Hop as (Hn & _). lia.
Qed.

(** ... and later row stages do not undo it. *)
Lemma settled_kept c s d d' :
  s ≠ ColumnValidation → s ≠ MinRowCheck →
  rows_kept d d' → settled c s d → settled c s d'.
Proof.
  intros Hs1 Hs2 (Hc & Hsub & Hn).
  assert (∀ f, clean f d → clean f d') as Hclean.
  { intros f Hf. unfold clean in *. rewrite Hc. rewrite Forall_forall in Hf.
    apply Forall_forall. intros r Hr. apply Hf. by eapply elem_of_submseteq. }
  destruct s; try done; simpl.
  - unfold ncols. by rewrite Hc.
  - intros [Hz Hf]. split; [auto|]. intros n Hn'. auto.
  - intros [Hz Hf]. auto.
  - intros [Hz Hf]. auto.
  - intros [Hz Hf]. auto.
  - unfold ncols. rewrite Hc. intros [?|Hnd]; [by left|right].
    by eapply NoDup_submseteq_inv.
  - intros Hle. apply submseteq_length in Hsub. unfold nrows in *. lia.
Qed.

(** A stage that is enabled lets a settled table through as it is. *)
Lemma settled_noop row c s T w :
  enabled c s = true → settled c s T →
  stage_fn row c s T w = (Normal T, add_markers [mkEvent s T T] w).
Proof.
  unfold add_markers. destruct s; simpl; intros En Hs.
  - unfold column_validation_stage. rewrite En.
    unfold bind, lift. by rewrite Hs.
  - unfold column_reduction_stage, sample_columns_if_needed. rewrite En.
    rewrite !bool_decide_eq_false_2 by lia. done.
  - unfold value_length_stage.
    destruct (max_value_len_chars c) as [[|n]|] eqn:Hn; try done.
    destruct Hs as [Hz Hc]. specialize (Hc _ eq_refl).
    unfold bind, lift. rewrite apply_row_based_filter_settled by done.
    unfold ret, mark. by rewrite bool_decide_eq_false_2.
  - unfold substring_stage.
    destruct (filter_rows_containing_substrings c) eqn:Hn; try done.
    destruct Hs as [Hz Hc].
    unfold bind, lift. rewrite apply_row_based_filter_settled by done.
    unfold ret, mark. by rewrite bool_decide_eq_false_2.
  - unfold code_stage. rewrite En. destruct Hs as [Hz Hc].
    unfold bind, lift. rewrite apply_row_based_filter_settled by done.
    unfold ret, mark. by rewrite bool_decide_eq_false_2.
  - unfold pii_stage. rewrite En. destruct Hs as [Hz Hc].
    unfold bind, lift. rewrite apply_row_based_filter_settled by done.
    unfold ret, mark. by rewrite bool_decide_eq_false_2.
  - unfold deduplication_stage. rewrite En.
    by rewrite drop_duplicates_settled.
  - unfold min_rows_stage. destruct (min_rows c) as [m|] eqn:Hm; [|done].
    specialize (Hs _ eq_refl). unfold bind, mark.
    rewrite bool_decide_eq_false_2 by lia. done.
  - unfold row_reduction_stage. rewrite En.
    rewrite bool_decide_eq_false_2 by lia. done.
Qed.

Lemma add_markers_nil w : add_markers [] w = w.
Proof. unfold add_markers. rewrite app_nil_r. by destruct w. Qed.

Lemma add_markers_app evs1 evs2 w :
  add_markers evs2 (add_markers evs1 w) = add_markers (evs1 ++ evs2) w.
Proof. unfold add_markers. simpl. by rewrite app_assoc. Qed.

(** On a table every enabled stage lets through, the stages only leave
    their markers. *)
Lemma settled_run row c sts k T w :
  (∀ s, s ∈ sts → enabled c s = true → settled c s T) →
  run_stages (stage_fn row c <$> sts) k T w
  = k T (add_markers ((λ s, mkEvent s T T) <$> filter (λ s, enabled c s = true) sts) w).
Proof.
  revert w. induction sts as [|s sts IH]; intros w Hall.
  { simpl. by rewrite add_markers_nil. }
  simpl. unfold bind at 1.
  destruct (enabled c s) eqn:En.
  - rewrite settled_noop; [|done|apply Hall; [apply elem_of_cons; by left|done]].
    rewrite IH by (intros s' Hs'; apply Hall, elem_of_cons; by right).
    rewrite add_markers_app, filter_cons_True by done. done.
  - destruct (stage_fn row c s T w) as [o1 w1] eqn:Est.
    apply stage_contract in Est as [_ Hst]. rewrite En in Hst.
    destruct Hst as [-> ->].
    rewrite IH by (intros s' Hs'; apply Hall, elem_of_cons; by right).
    rewrite filter_cons_False by (by rewrite En). done.
Qed.

(** What every table that went through the whole pipeline satisfies: all
    enabled stages but column validation and the minimum row count let it
    through as it is. *)
Lemma steps_settled c df T s :
  steps c pipeline df T →
  s ≠ ColumnValidation → s ≠ MinRowCheck →
  enabled c s = true → settled c s T.
Proof.
  unfold pipeline. cbn [steps].
  intros (d1 & H1 & d2 & H2 & d3 & H3 & d4 & H4 & d5 & H5 & d6 & H6
          & d7 & H7 & d8 & H8 & d9 & H9 & ->) Hs1 Hs2 En.
  pose proof (row_stage_kept c RowReduction d8 d9 eq_refl H9) as K8.
  pose proof (rows_kept_trans _ _ _
                (row_stage_kept c MinRowCheck d7 d8 eq_refl H8) K8) as K7.
  pose proof (rows_kept_trans _ _ _
                (row_stage_kept c Deduplication d6 d7 eq_refl H7) K7) as K6.
  pose proof (rows_kept_trans _ _ _
                (row_stage_kept c PIIFilter d5 d6 eq_refl H6) K6) as K5.
  pose proof (rows_kept_trans _ _ _
                (row_stage_kept c CodeFilter d4 d5 eq_refl H5) K5) as K4.
  pose proof (rows_kept_trans _ _ _
                (row_stage_kept c SubstringFilter d3 d4 eq_refl H4) K4) as K3.
  pose proof (rows_kept_trans _ _ _
                (row_stage_kept c ValueLengthFilter d2 d3 eq_refl H3) K3) as K2.
  destruct s; try done.
  - rewrite En in H2. destruct H2. eapply settled_kept; [done..|exact K2|].
    by eapply stage_settles.
  - rewrite En in H3. destruct H3. eapply settled_kept; [done..|exact K3|].
    by eapply stage_settles.
  - rewrite En in H4. destruct H4. eapply settled_kept; [done..|exact K4|].
    by eapply stage_settles.
  - rewrite En in H5. destruct H5. eapply settled_kept; [done..|exact K5|].
    by eapply stage_settles.
  - rewrite En in H6. destruct H6. eapply settled_kept; [done..|exact K6|].
    by eapply stage_settles.
  - rewrite En in H7. destruct H7. eapply settled_kept; [done..|exact K7|].
    by eapply stage_settles.
  - rewrite En in H9. destruct H9. by eapply stage_settles.
Qed.

(** C8, as the code has it: a table [T] that the pipeline produced is
    produced again, unchanged, when the pipeline is run on it with the
    same configuration (no row or column is removed, no stage rejects it,
    [T] is written), provided that [T] still passes column validation
    whole, when that stage is enabled, and still has the minimum row
    count, when one is set. *)
Theorem rerun_keeps_output row1 row2 root_dir fmt c w1 r1 w1' evs1 df1 T w2
    content_hash :
  write_dataframe_to_file row1 root_dir fmt c w1 = (Return r1, w1') →
  trace w1' = trace w1 ++ evs1 →
  Forall (λ ev, rejects c ev = false) evs1 →
  table_of row1 = inr df1 →
  T = last_table df1 evs1 →
  fmt = "csv" ∨ fmt = "parquet" →
  table_of row2 = inr T →
  row2 !! "content_hash" = Some content_hash →
  (drop_invalid_cols c = true →
   select_columns T
     (fetch_names_of_valid_columns T (max_header_len_chars c)
        (min_unique_column_values c) (max_null_like_frac c)) = inr T) →
  (∀ m, min_rows c = Some m → m ≤ nrows T) →
  ∃ w2',
    write_dataframe_to_file row2 root_dir fmt c w2 = (Return row2, w2')
    ∧ trace w2' = trace w2 ++ ((λ s, mkEvent s T T)
                                <$> filter (λ s, enabled c s = true) pipeline)
    ∧ files w2' =
        <[output_path content_hash (default "" (head (uuids w2))) root_dir fmt
          := mkFile fmt false T]> (files w2).
Proof.
  intros Hrun Htr Hnr Ht1 HT Hfmt Ht2 Hh Hcol Hmin.
  assert (r1 = row1) as ->.
  { by pose proof (outcome_is_return _ _ _ _ _ _ _ Hrun ltac:(done)) as [= ->]. }
  apply write_dataframe_to_file_inv in Hrun as (_ & evs' & Htr' & _ & _ & Hend).
  rewrite Htr in Htr'. apply app_inv_head in Htr' as <-.
  destruct Hend as [(e & ? & _)|(df & h & Ht & _ & _ & Hend)]; [done|].
  rewrite Ht1 in Ht. injection Ht as <-. rewrite <- HT in Hend.
  destruct Hend as [(_ & _ & Hsteps & Hpq & _)
                   |[(_ & _ & evs0 & ev0 & -> & _ & Hr0)|(e & ? & _)]]; [| |done].
  2:{ exfalso. eapply not_rejected; [exact Hnr| |exact Hr0].
      apply elem_of_app. right. by apply list_elem_of_singleton. }
  assert (∀ s, s ∈ pipeline → enabled c s = true → settled c s T) as Hall.
  { intros s _ En.
    destruct (decide (s = ColumnValidation)) as [->|Hs1]; [by apply Hcol|].
    destruct (decide (s = MinRowCheck)) as [->|Hs2]; [done|].
    by eapply steps_settled. }
  rewrite write_dataframe_to_file_eq, Ht2, Hh, settled_run by done.
  specialize (Hpq eq_refl). unfold writer_fault in Hpq.
  unfold output_stage, bind, logging_warning, to_csv, to_parquet, write_or_fail,
    write_file, return_, ret.
  cbn [add_markers after_prelude trace files dirs log uuids rng].
  destruct Hfmt as [->| ->].
  - rewrite bool_decide_eq_true_2 in Hpq |- * by done.
    rewrite Hpq. eexists. by split_and!.
  - rewrite bool_decide_eq_false_2 in Hpq |- * by done.
    rewrite bool_decide_eq_true_2 in Hpq |- * by done.
    rewrite Hpq. eexists. by split_and!.
Qed.

(** *** Where the output file goes *)


Lemma append_inj_l s x y : s +:+ x = s +:+ y → x = y.
Proof.
  induction s as [|a s IH]; [done|]. rewrite !append_cons_l. intros [= ?]. auto.
Qed.

Lemma length_append s1 s2 :
  String.length (s1 +:+ s2) = String.length s1 + String.length s2.
Proof.
  induction s1 as [|a s1 IH]; [done|]. rewrite append_cons_l. simpl. by rewrite IH.
Qed.

Lemma append_inj_r s x y : x +:+ s = y +:+ s → x = y.
Proof.
  revert y. induction x as [|a x IH]; intros [|b y] Heq; [done| | |].
  - apply (f_equal String.length) in Heq.
    rewrite append_nil_l, append_cons_l in Heq. simpl in Heq.
    rewrite length_append in Heq. lia.
  - apply (f_equal String.length) in Heq.
    rewrite append_nil_l, append_cons_l in Heq. simpl in Heq.
    rewrite length_append in Heq. lia.
  - rewrite !append_cons_l in Heq. injection Heq as -> Heq. f_equal. by apply IH.
Qed.

Lemma prefix_append_short p h rest :
  String.length p ≤ String.length h →
  String.prefix p (h +:+ rest) = String.prefix p h.
Proof.
  revert h. induction p as [|a p IH]; intros h Hlen.
  - by destruct (h +:+ rest), h.
  - destruct h as [|b h]; [simpl in Hlen; lia|].
    rewrite append_cons_l.
    change (String.prefix (String a p) (String b (h +:+ rest)))
      with (if Ascii.ascii_dec a b then String.prefix p (h +:+ rest) else false).
    change (String.prefix (String a p) (String b h))
      with (if Ascii.ascii_dec a b then String.prefix p h else false).
    destruct (Ascii.ascii_dec a b); [|done]. apply IH. simpl in Hlen. lia.
Qed.

(** Whether the file name starts with a slash is decided by the content
    hash. *)
Lemma startswith_slash_name h rest :
  startswith "/" (h +:+ "__" +:+ rest) = startswith "/" h.
Proof.
  unfold startswith. destruct h as [|a h]; [done|].
  apply prefix_append_short. simpl. lia.
Qed.



(** ** Beyond the claims: what else the two functions do *)

Lemma stage_keeps_uuids row c s df w o w' :
  stage_fn row c s df w = (o, w') → uuids w' = uuids w.
Proof.
  destruct s; simpl; unfold_stage.
  all: repeat (case_match; simpl in * ); intros; by simplify_eq/=.
Qed.

(** A stage that lets the table through logs nothing. *)
Lemma stage_normal_log row c s df w df' w' :
  stage_fn row c s df w = (Normal df', w') → log w' = log w.
Proof.
  destruct s; simpl; unfold_stage.
  all: repeat (case_match; simpl in * ); intros; by simplify_eq/=.
Qed.

Lemma run_stages_uuids row c sts k df w o w' :
  run_stages (stage_fn row c <$> sts) k df w = (o, w') →
  (∃ df' w1, uuids w1 = uuids w ∧ k df' w1 = (o, w')) ∨ uuids w' = uuids w.
Proof.
  revert df w. induction sts as [|s sts IH]; intros df w Hrun.
  { left. by exists df, w. }
  simpl in Hrun. unfold bind in Hrun at 1.
  destruct (stage_fn row c s df w) as [o1 w1] eqn:Est.
  apply stage_keeps_uuids in Est.
  destruct o1 as [df1|r|e]; [|right; by simplify_eq..].
  apply IH in Hrun as [(df' & w2 & Hu & Hk)|Hu].
  - left. exists df', w2. split; [congruence|done].
  - right. congruence.
Qed.

Lemma output_stage_log row fmt filename df w o w' :
  output_stage row fmt filename df w = (o, w') →
  uuids w' = uuids w
  ∧ log w' = log w ++ ["[DEBUG] writing dataframe of shape " +:+ shape_str df
                        +:+ " to " +:+ filename].
Proof.
  unfold output_stage, to_csv, to_parquet, write_or_fail, write_file, bind,
    logging_warning, return_, raise, ret; simpl.
  repeat case_bool_decide; simpl.
  - destruct (csv_fault df) as [[e [part|]]|]; simpl; by intros [= <- <-].
  - destruct (parquet_fault df) as [[e [part|]]|]; simpl; by intros [= <- <-].
  - by intros [= <- <-].
Qed.

(** X2: a record that is returned, written or rejected, has had its
    destination directory created and exactly one identifier drawn: both
    happen before anything about the record is looked at. *)
Theorem directory_created_also_when_rejected row root_dir fmt c w r w' :
  write_dataframe_to_file row root_dir fmt c w = (Return r, w') →
  abspath root_dir ∈ dirs w' ∧ dirs w ⊆ dirs w' ∧ uuids w' = tail (uuids w).
Proof.
  intros Hrun. pose proof Hrun as Hinv.
  apply write_dataframe_to_file_inv in Hinv as (Hd & _).
  split; [rewrite Hd; apply elem_of_union_l; by apply elem_of_singleton|].
  split; [rewrite Hd; apply union_subseteq_r|].
  rewrite write_dataframe_to_file_eq in Hrun.
  destruct (table_of row) as [e|df]; [by simplify_eq|].
  destruct (row !! "content_hash") as [h|]; [|by simplify_eq].
  apply run_stages_uuids in Hrun as [(df' & w1 & Hu & Hk)|Hu]; [|done].
  apply output_stage_log in Hk as [Hu' _]. by rewrite Hu', Hu.
Qed.



Lemma stage_return_log row c s df w r w' :
  stage_fn row c s df w = (Return r, w') →
  ∃ df', trace w' = trace w ++ [mkEvent s df df']
         ∧ rejects c (mkEvent s df df') = true
         ∧ log w' = log w ++ rejection_log (mkEvent s df df').
Proof.
  destruct s; simpl; unfold_stage; unfold rejects, rejection_log; simpl.
  all: repeat (case_match; simpl in * ); intros; simplify_eq/=.
  all: eexists; (split; [reflexivity|]); split; try done.
  all: by rewrite ?app_nil_r.
Qed.

(** A run of consecutive stages reaches the rest of the function without
    having logged anything, or ends on a rejecting marker with the warning
    of that stage logged, or raises. *)
Lemma run_stages_log row c sts k df w o w' :
  run_stages (stage_fn row c <$> sts) k df w = (o, w') →
  (∃ w1 evs, k (last_table df evs) w1 = (o, w') ∧ log w1 = log w
             ∧ trace w1 = trace w ++ evs
             ∧ Forall (λ ev, rejects c ev = false) evs)
  ∨ (∃ evs0 ev, trace w' = trace w ++ evs0 ++ [ev] ∧ rejects c ev = true
                ∧ log w' = log w ++ rejection_log ev)
  ∨ (∃ e, o = Raise e).
Proof.
  revert df w. induction sts as [|s sts IH]; intros df w Hrun.
  { left. exists w, []. rewrite app_nil_r. by split_and!. }
  rewrite fmap_cons in Hrun. cbn [run_stages] in Hrun. unfold bind in Hrun at 1.
  destruct (stage_fn row c s df w) as [o1 w1] eqn:Est.
  pose proof (stage_contract _ _ _ _ _ _ _ Est) as [_ Hst].
  destruct o1 as [df1|r|e].
  - apply stage_normal_log in Est.
    apply IH in Hrun as [(w2 & evs & Hk & Hl & Htr & Hnr)
                        |[(evs0 & ev & Htr & Hr & Hl)|He]].
    + left. destruct (enabled c s).
      * destruct Hst as (Hs & _ & Hrej). exists w2, (mkEvent s df df1 :: evs).
        rewrite last_table_cons. simpl. split; [done|]. split; [congruence|].
        split; [by rewrite Htr, Hs, <- app_assoc|by constructor].
      * destruct Hst as [[= ->] ->]. by exists w2, evs.
    + right. left. destruct (enabled c s).
      * destruct Hst as (Hs & _). exists (mkEvent s df df1 :: evs0), ev.
        split; [by rewrite Htr, Hs, <- !app_assoc|]. split; [done|congruence].
      * destruct Hst as [_ ->]. by exists evs0, ev.
    + by right; right.
  - right. left. apply stage_return_log in Est as (df1 & Htr & Hr & Hl).
    simplify_eq. by exists [], (mkEvent s df df1).
  - simplify_eq. right. right. by exists e.
Qed.

(** X5: the call for a record that no stage rejects logs exactly one
    line, the [DEBUG] line with the shape of the processed table and the
    output path; it does so also when the format is neither "csv" nor
    "parquet", and then no file is written at all. *)
Theorem survivor_logs_the_write row root_dir fmt c w r w' evs :
  write_dataframe_to_file row root_dir fmt c w = (Return r, w') →
  trace w' = trace w ++ evs →
  Forall (λ ev, rejects c ev = false) evs →
  ∃ content_hash df,
    row !! "content_hash" = Some content_hash ∧ table_of row = inr df
    ∧ log w' =
        log w ++ ["[DEBUG] writing dataframe of shape "
                  +:+ shape_str (last_table df evs) +:+ " to "
                  +:+ os_path_join (abspath root_dir)
                        (str content_hash +:+ "__" +:+ default "" (head (uuids w))
                         +:+ "." +:+ fmt)]
    ∧ (fmt ≠ "csv" → fmt ≠ "parquet" → files w' = files w).
Proof.
  intros Hrun Htr Hnr. pose proof Hrun as Hinv.
  rewrite write_dataframe_to_file_eq in Hrun.
  destruct (table_of row) as [e|df] eqn:Ht; [done|].
  destruct (row !! "content_hash") as [h|] eqn:Hh; [|done].
  exists h, df. split; [done|]. split; [done|].
  apply run_stages_log in Hrun as [(w1 & evs' & Hk & Hl & Htr' & _)
                                  |[(evs0 & ev & Htr' & Hr & _)|(e & ?)]]; [| |done].
  - pose proof Hk as Hk'. apply output_stage_log in Hk as [_ Hlog].
    apply output_stage_inv in Hk' as (_ & Htr'' & _).
    rewrite Htr', Htr in Htr''. simpl in Htr''.
    apply app_inv_head in Htr'' as ->.
    split; [by rewrite Hlog, Hl|].
    intros Hn1 Hn2.
    apply write_dataframe_to_file_inv in Hinv as (_ & evs2 & _ & _ & _ & Hend).
    destruct Hend as [(e & ? & _)|(df2 & h2 & _ & _ & _ & Hend)]; [done|].
    destruct Hend as [(_ & _ & _ & _ & [(_ & [?|?] & _)|[(_ & _ & _ & Hf)
                                        |(e & lf & ? & _)]])
                     |[(_ & Hf & _)|(e & ? & _)]]; done.
  - exfalso. simpl in Htr'. rewrite Htr in Htr'. apply app_inv_head in Htr' as ->.
    eapply not_rejected; [exact Hnr| |exact Hr].
    apply elem_of_app. right. by apply list_elem_of_singleton.
Qed.

Lemma _write_element_without_hash self element w :
  element !! "content_hash" = None →
  ∃ w', _write_element self element w
        = (Raise (mkExn KeyError "'content_hash'"), w')
        ∧ files w' = files w ∧ log w' = log w.
Proof.
  intros Hh. unfold _write_element, try_except, bind, call.
  rewrite write_dataframe_to_file_eq, Hh.
  destruct (table_of element) as [e|df]; unfold getitem; rewrite Hh;
    repeat case_bool_decide; unfold raise;
    (eexists; split; [reflexivity|]; by split).
Qed.

(** X1: the containment of failures needs the content hash: for an
    element without ["content_hash"] the task raises, the handler of
    [_write_element] raises [KeyError] itself while building its log line,
    and the error leaves [_write_element]; nothing has been written or
    logged. *)
Theorem missing_content_hash_escapes self element w :
  element !! "content_hash" = None →
  ∃ w', _write_element self element w
        = (Raise (mkExn KeyError "'content_hash'"), w')
        ∧ files w' = files w ∧ log w' = log w.
Proof. apply _write_element_without_hash. Qed.

(** *** What every written table satisfies *)

(** The processed table of a record that no stage rejects went through
    the whole pipeline. *)
Lemma survivor_steps row root_dir fmt c w r w' evs df :
  write_dataframe_to_file row root_dir fmt c w = (Return r, w') →
  trace w' = trace w ++ evs →
  Forall (λ ev, rejects c ev = false) evs →
  table_of row = inr df →
  steps c pipeline df (last_table df evs)
  ∧ chained df evs ∧ Forall (event_sound c) evs.
Proof.
  intros Hrun Htr Hnr Ht.
  apply write_dataframe_to_file_inv in Hrun as (_ & evs' & Htr' & Hs & _ & Hend).
  rewrite Htr in Htr'. apply app_inv_head in Htr' as <-.
  destruct Hend as [(e & ? & _)|(df' & h & Ht' & _ & Hch & Hend)]; [done|].
  rewrite Ht in Ht'. injection Ht' as <-.
  destruct Hend as [(_ & _ & Hsteps & _)
                   |[(_ & _ & evs0 & ev0 & -> & _ & Hr0)|(e & ? & _)]]; [done| |done].
  exfalso. eapply not_rejected; [exact Hnr| |exact Hr0].
  apply elem_of_app. right. by apply list_elem_of_singleton.
Qed.

Lemma select_columns_inv df names df' :
  select_columns df names = inr df' →
  ∃ idx, df' = take_columns idx df.
Proof.
  unfold select_columns. destruct (try_map _ names) as [e|pss]; simpl; [done|].
  intros [= <-]. by eexists.
Qed.

Lemma take_columns_nrows idx df : nrows (take_columns idx df) = nrows df.
Proof. unfold nrows, take_columns. simpl. apply length_map. Qed.

Lemma take_columns_subseteq idx df :
  df_columns (take_columns idx df) ⊆ df_columns df.
Proof.
  unfold take_columns. simpl. intros col Hcol.
  apply list_elem_of_omap in Hcol as (j & _ & Hj).
  by eapply list_elem_of_lookup_2.
Qed.

(** No stage adds a row or a column. *)
Lemma stage_op_shrinks c s d d' :
  stage_op c s d d' →
  nrows d' ≤ nrows d ∧ df_columns d' ⊆ df_columns d.
Proof.
  destruct s; simpl.
  - intros [idx ->]%select_columns_inv.
    rewrite take_columns_nrows. split; [done|apply take_columns_subseteq].
  - intros [r ->]. unfold sample_columns_if_needed. case_bool_decide; [|done].
    rewrite take_columns_nrows. split; [done|apply take_columns_subseteq].
  - intros (n & _ & Hop). apply filtered_is_clean in Hop as (Hc & Hsub & _).
    split; [by apply sublist_length|by rewrite Hc].
  - intros Hop. apply filtered_is_clean in Hop as (Hc & Hsub & _).
    split; [by apply sublist_length|by rewrite Hc].
  - intros Hop. apply filtered_is_clean in Hop as (Hc & Hsub & _).
    split; [by apply sublist_length|by rewrite Hc].
  - intros Hop. apply filtered_is_clean in Hop as (Hc & Hsub & _).
    split; [by apply sublist_length|by rewrite Hc].
  - intros ->. destruct (drop_duplicates_inv d) as (Hc & Hsub & _).
    split; [by apply sublist_length|by rewrite Hc].
  - by intros ->.
  - case_bool_decide; [|by intros ->].
    intros [r Hop]. apply df_sample_inv in Hop as (_ & Hsub & Hc).
    split; [by apply submseteq_length|by rewrite Hc].
Qed.

Lemma chained_shrinks c df evs :
  chained df evs → Forall (event_sound c) evs →
  nrows (last_table df evs) ≤ nrows df
  ∧ df_columns (last_table df evs) ⊆ df_columns df.
Proof.
  revert df. induction evs as [|ev evs IH]; intros df Hch Hs; [done|].
  destruct Hch as [<- Hch]. apply Forall_cons in Hs as [Hev Hs].
  rewrite last_table_cons. destruct (IH _ Hch Hs) as [Hn Hc].
  apply stage_op_shrinks in Hev as [Hn' Hc']. split; [lia|by etrans].
Qed.

(** X7: the table written for a record never has more rows than the
    record's table, nor a column (label and dtype) the record's table does
    not have; with row reduction enabled it has at most [max_output_rows]
    rows, with column reduction enabled at most [max_cols] columns. *)
Theorem written_table_bounds row root_dir fmt c w r w' evs df :
  write_dataframe_to_file row root_dir fmt c w = (Return r, w') →
  trace w' = trace w ++ evs →
  Forall (λ ev, rejects c ev = false) evs →
  table_of row = inr df →
  nrows (last_table df evs) ≤ nrows df
  ∧ df_columns (last_table df evs) ⊆ df_columns df
  ∧ (drop_extra_rows c = true → nrows (last_table df evs) ≤ max_output_rows c)
  ∧ (drop_extra_cols c = true → ncols (last_table df evs) ≤ max_cols c).
Proof.
  intros Hrun Htr Hnr Ht.
  destruct (survivor_steps _ _ _ _ _ _ _ _ _ Hrun Htr Hnr Ht) as (Hsteps & Hch & Hs).
  destruct (chained_shrinks _ _ _ Hch Hs) as [Hn Hc].
  split; [done|]. split; [done|]. split; intros En.
  - by apply (steps_settled c df _ RowReduction Hsteps).
  - by apply (steps_settled c df _ ColumnReduction Hsteps).
Qed.

(** X8: with deduplication enabled, the table written has no two equal
    rows (or has no column at all, in which case pandas leaves it alone):
    the sampling that follows deduplication does not bring duplicates
    back. *)
Theorem written_rows_distinct row root_dir fmt c w r w' evs df :
  write_dataframe_to_file row root_dir fmt c w = (Return r, w') →
  trace w' = trace w ++ evs →
  Forall (λ ev, rejects c ev = false) evs →
  table_of row = inr df →
  drop_duplicate_rows c = true →
  ncols (last_table df evs) = 0 ∨ NoDup (df_rows (last_table df evs)).
Proof.
  intros Hrun Htr Hnr Ht En.
  destruct (survivor_steps _ _ _ _ _ _ _ _ _ Hrun Htr Hnr Ht) as (Hsteps & _).
  by apply (steps_settled c df _ Deduplication Hsteps).
Qed.

Lemma row_matches_false_inv cols so f r :
  row_matches cols so f r = inr false →
  ∀ v, v ∈ filter_cells cols so r → f v = inr false.
Proof.
  unfold row_matches.
  destruct (try_map f (filter_cells cols so r)) as [e|bs] eqn:Hm; simpl; [done|].
  intros [= Hex]. apply try_map_inr in Hm.
  induction Hm as [|x b l bs' Hx _ IH]; intros v Hv.
  - by apply elem_of_nil in Hv.
  - simpl in Hex. apply orb_false_iff in Hex as [Hb Hex]. unfold id in Hb.
    apply elem_of_cons in Hv as [->|Hv]; [congruence|by apply IH].
Qed.

(** X9: with the code filter enabled, no value of a string-typed column
    of the written table is flagged by [contains_code], and the table has
    at least one row; likewise for the PII filter and [contains_pii]. *)
Theorem written_table_passes_detectors row root_dir fmt c w r w' evs df :
  write_dataframe_to_file row root_dir fmt c w = (Return r, w') →
  trace w' = trace w ++ evs →
  Forall (λ ev, rejects c ev = false) evs →
  table_of row = inr df →
  (filter_rows_containing_code c = true →
   nrows (last_table df evs) ≠ 0
   ∧ ∀ row_ v, row_ ∈ df_rows (last_table df evs) →
               v ∈ filter_cells (df_columns (last_table df evs)) true row_ →
               contains_code v = false)
  ∧ (filter_rows_containing_pii c = true →
     nrows (last_table df evs) ≠ 0
     ∧ ∀ row_ v, row_ ∈ df_rows (last_table df evs) →
                 v ∈ filter_cells (df_columns (last_table df evs)) true row_ →
                 contains_pii v = false).
Proof.
  intros Hrun Htr Hnr Ht.
  destruct (survivor_steps _ _ _ _ _ _ _ _ _ Hrun Htr Hnr Ht) as (Hsteps & _).
  split; intros En.
  - destruct (steps_settled c df _ CodeFilter Hsteps) as [Hz Hc]; [done..|].
    split; [done|]. intros row_ v Hr Hv.
    unfold clean in Hc. rewrite Forall_forall in Hc.
    pose proof (row_matches_false_inv _ _ _ _ (Hc _ Hr) v Hv) as Hf.
    by injection Hf.
  - destruct (steps_settled c df _ PIIFilter Hsteps) as [Hz Hc]; [done..|].
    split; [done|]. intros row_ v Hr Hv.
    unfold clean in Hc. rewrite Forall_forall in Hc.
    pose proof (row_matches_false_inv _ _ _ _ (Hc _ Hr) v Hv) as Hf.
    by injection Hf.
Qed.

(** X10: with a value-length threshold (not [None], not [0]), the text
    of every value of a string-typed column of the written table has at
    most that many characters (code points, as [len] counts them, not
    bytes); a text of exactly the threshold length is allowed. *)
Theorem written_values_within_length row root_dir fmt c w r w' evs df n :
  write_dataframe_to_file row root_dir fmt c w = (Return r, w') →
  trace w' = trace w ++ evs →
  Forall (λ ev, rejects c ev = false) evs →
  table_of row = inr df →
  max_value_len_chars c = Some (S n) →
  ∀ row_ v s, row_ ∈ df_rows (last_table df evs) →
              v ∈ filter_cells (df_columns (last_table df evs)) true row_ →
              py_str v = inr s → py_len s ≤ S n.
Proof.
  intros Hrun Htr Hnr Ht Hn row_ v s Hr Hv Hs.
  destruct (survivor_steps _ _ _ _ _ _ _ _ _ Hrun Htr Hnr Ht) as (Hsteps & _).
  destruct (steps_settled c df _ ValueLengthFilter Hsteps) as [_ Hc];
    [done..|by simpl; rewrite Hn|].
  specialize (Hc _ Hn). unfold clean in Hc. rewrite Forall_forall in Hc.
  pose proof (row_matches_false_inv _ _ _ _ (Hc _ Hr) v Hv) as Hf.
  unfold value_too_long in Hf. rewrite Hs in Hf.
  simpl in Hf. injection Hf as Hf. apply bool_decide_eq_false in Hf. lia.
Qed.

(** X20: with a non-empty list of forbidden substrings, no text of a
    value of a string-typed column of the written table contains one of
    them, and the table has at least one row. *)
Theorem written_table_without_substrings row root_dir fmt c w r w' evs df :
  write_dataframe_to_file row root_dir fmt c w = (Return r, w') →
  trace w' = trace w ++ evs →
  Forall (λ ev, rejects c ev = false) evs →
  table_of row = inr df →
  filter_rows_containing_substrings c ≠ [] →
  nrows (last_table df evs) ≠ 0
  ∧ ∀ row_ v s substr,
      row_ ∈ df_rows (last_table df evs) →
      v ∈ filter_cells (df_columns (last_table df evs)) true row_ →
      py_str v = inr s →
      substr ∈ filter_rows_containing_substrings c →
      ¬ ∃ pre post, s = pre +:+ substr +:+ post.
Proof.
  intros Hrun Htr Hnr Ht Hne.
  destruct (survivor_steps _ _ _ _ _ _ _ _ _ Hrun Htr Hnr Ht) as (Hsteps & _).
  destruct (steps_settled c df _ SubstringFilter Hsteps) as [Hz Hc]; [done..| |].
  { simpl. by destruct (filter_rows_containing_substrings c). }
  split; [done|]. intros row_ v s substr Hr Hv Hs Hsub Hcontains.
  unfold clean in Hc. rewrite Forall_forall in Hc.
  pose proof (row_matches_false_inv _ _ _ _ (Hc _ Hr) v Hv) as Hf.
  unfold _contains_substring_filter_fn in Hf. rewrite Hs in Hf.
  injection Hf as Hf. rewrite existsb_false_iff in Hf.
  apply contains_spec in Hcontains. specialize (Hf _ Hsub). congruence.
Qed.

(** X11: the minimum row count is checked before the sampling: the
    written table has at least [min_rows] rows, unless row reduction has
    sampled it down to a [max_output_rows] smaller than [min_rows]. *)
Theorem written_min_rows_or_sampled row root_dir fmt c w r w' evs df m :
  write_dataframe_to_file row root_dir fmt c w = (Return r, w') →
  trace w' = trace w ++ evs →
  Forall (λ ev, rejects c ev = false) evs →
  table_of row = inr df →
  min_rows c = Some m →
  m ≤ nrows (last_table df evs)
  ∨ (drop_extra_rows c = true
     ∧ nrows (last_table df evs) = max_output_rows c
     ∧ max_output_rows c < m).
Proof.
  intros Hrun Htr Hnr Ht Hm.
  destruct (survivor_steps _ _ _ _ _ _ _ _ _ Hrun Htr Hnr Ht) as (Hsteps & _).
  revert Hsteps. generalize (last_table df evs). intros T.
  unfold pipeline. cbn [steps].
  intros (d1 & _ & d2 & _ & d3 & _ & d4 & _ & d5 & _ & d6 & _
          & d7 & _ & d8 & H8 & d9 & H9 & ->).
  assert (m ≤ nrows d8) as Hd8.
  { simpl in H8. rewrite Hm in H8. destruct H8 as [-> Hrej].
    unfold rejects in Hrej. simpl in Hrej. rewrite Hm in Hrej.
    apply bool_decide_eq_false in Hrej. lia. }
  simpl in H9. destruct (drop_extra_rows c); [|left; by subst].
  destruct H9 as [Hop _]. case_bool_decide as Hgt; [|left; by subst].
  destruct Hop as [rs Hop]. apply df_sample_inv in Hop as (Hn & _).
  destruct (decide (m ≤ max_output_rows c)); [left; lia|right].
  split; [done|]. split; [done|lia].
Qed.

(** *** Which path a call changes *)

Lemma files_change_inv row root_dir fmt c w o w' :
  write_dataframe_to_file row root_dir fmt c w = (o, w') →
  files w' = files w
  ∨ ∃ h d, row !! "content_hash" = Some h
           ∧ files w' = <[output_path h (default "" (head (uuids w))) root_dir fmt
                          := d]> (files w).
Proof.
  intros Hrun.
  apply write_dataframe_to_file_inv in Hrun as (_ & evs & _ & _ & _ & Hend).
  destruct Hend as [(e & _ & _ & Hf & _)|(df & h & _ & Hh & _ & Hend)];
    [by left|].
  destruct Hend as [(_ & _ & _ & _ & [(-> & Hfmt & Hf)|[(_ & _ & _ & Hf)
                                      |(e & lf & _ & _ & _ & Hf)]])
                   |[(_ & Hf & _)|(e & _ & Hf & _)]];
    try (by left).
  - right. by exists h, (mkFile fmt false (last_table df evs)).
  - destruct lf as [part|]; [|by left].
    right. by exists h, (mkFile fmt false part).
Qed.

Lemma changed_path_inv row root_dir fmt c w o w' p :
  write_dataframe_to_file row root_dir fmt c w = (o, w') →
  files w' !! p ≠ files w !! p →
  ∃ h, row !! "content_hash" = Some h
       ∧ p = output_path h (default "" (head (uuids w))) root_dir fmt.
Proof.
  intros Hrun Hp.
  apply files_change_inv in Hrun as [Hf|(h & d & Hh & Hf)];
    [by rewrite Hf in Hp|].
  exists h. split; [done|]. rewrite Hf in Hp.
  destruct (decide (output_path h (default "" (head (uuids w))) root_dir fmt = p))
    as [<-|Hne]; [done|].
  by rewrite lookup_insert_ne in Hp.
Qed.

(** X12: the file a call writes lies directly under [abspath(root_dir)]
    when the text of the content hash does not start with a slash; when it
    does, [os.path.join] drops the directory and the path is the file name
    alone. *)
Theorem output_file_location row root_dir fmt c w o w' p content_hash :
  write_dataframe_to_file row root_dir fmt c w = (o, w') →
  files w' !! p ≠ files w !! p →
  row !! "content_hash" = Some content_hash →
  (startswith "/" (str content_hash) = false →
   p = abspath root_dir
       +:+ (if bool_decide (abspath root_dir = "") || endswith "/" (abspath root_dir)
            then "" else "/")
       +:+ str content_hash +:+ "__" +:+ default "" (head (uuids w)) +:+ "." +:+ fmt)
  ∧ (startswith "/" (str content_hash) = true →
     p = str content_hash +:+ "__" +:+ default "" (head (uuids w)) +:+ "." +:+ fmt).
Proof.
  intros Hrun Hp Hh.
  destruct (changed_path_inv _ _ _ _ _ _ _ _ Hrun Hp) as (h & Hh' & ->).
  rewrite Hh in Hh'. injection Hh' as <-.
  unfold output_path, os_path_join. rewrite startswith_slash_name.
  split; intros ->; [|done].
  by destruct (bool_decide (abspath root_dir = "") || endswith "/" (abspath root_dir)).
Qed.

Lemma output_path_token_inj h u1 u2 root_dir fmt :
  output_path h u1 root_dir fmt = output_path h u2 root_dir fmt → u1 = u2.
Proof.
  unfold output_path, os_path_join. rewrite !startswith_slash_name.
  assert (∀ a, a +:+ str h +:+ "__" +:+ u1 +:+ "." +:+ fmt
               = a +:+ str h +:+ "__" +:+ u2 +:+ "." +:+ fmt → u1 = u2) as Hinj.
  { intros a Heq. do 3 apply append_inj_l in Heq. by apply append_inj_r in Heq. }
  destruct (startswith "/" (str h)); [apply (Hinj "")|].
  destruct (bool_decide (abspath root_dir = "") || endswith "/" (abspath root_dir)).
  - apply Hinj.
  - intros Heq. apply append_inj_l in Heq. by apply (Hinj "/").
Qed.

(** X13: two calls for the same content hash, directory and format that
    draw different identifiers write to different paths: the second does
    not overwrite the file of the first. *)
Theorem different_tokens_different_files row1 row2 root_dir fmt c1 c2
    w1 o1 w1' w2 o2 w2' p1 p2 content_hash :
  write_dataframe_to_file row1 root_dir fmt c1 w1 = (o1, w1') →
  write_dataframe_to_file row2 root_dir fmt c2 w2 = (o2, w2') →
  row1 !! "content_hash" = Some content_hash →
  row2 !! "content_hash" = Some content_hash →
  default "" (head (uuids w1)) ≠ default "" (head (uuids w2)) →
  files w1' !! p1 ≠ files w1 !! p1 →
  files w2' !! p2 ≠ files w2 !! p2 →
  p1 ≠ p2 ∧ files w2' !! p1 = files w2 !! p1.
Proof.
  intros Hrun1 Hrun2 Hh1 Hh2 Hu Hp1 Hp2.
  destruct (changed_path_inv _ _ _ _ _ _ _ _ Hrun1 Hp1) as (h1 & Hh1' & ->).
  destruct (changed_path_inv _ _ _ _ _ _ _ _ Hrun2 Hp2) as (h2 & Hh2' & ->).
  simplify_eq.
  assert (output_path content_hash (default "" (head (uuids w1))) root_dir fmt
          ≠ output_path content_hash (default "" (head (uuids w2))) root_dir fmt)
    as Hne.
  { intros Heq. by apply output_path_token_inj in Heq. }
  split; [done|].
  apply files_change_inv in Hrun2 as [Hf|(h & d & Hh & Hf)]; [by rewrite Hf|].
  simplify_eq. rewrite Hf. by apply lookup_insert_ne.
Qed.

(** *** A table without rows *)

Lemma try_map_ok {A B} (f : A → result B) l :
  (∀ x, x ∈ l → ∃ b, f x = inr b) → ∃ bs, try_map f l = inr bs.
Proof.
  induction l as [|x l IH]; intros Hall; [by exists []|].
  destruct (Hall x) as [b Hb]; [apply elem_of_cons; by left|].
  destruct IH as [bs Hbs]; [intros y Hy; apply Hall, elem_of_cons; by right|].
  exists (b :: bs). simpl. by rewrite Hb; simpl; rewrite Hbs.
Qed.

Lemma zip_seq_lookup {A} (l : list A) a j x :
  (j, x) ∈ zip (seq a (length l)) l → a ≤ j ∧ l !! (j - a) = Some x.
Proof.
  revert a. induction l as [|y l IH]; intros a; simpl.
  - intros Hin. by apply elem_of_nil in Hin.
  - intros [[= -> ->]|Hin]%elem_of_cons.
    + split; [done|]. by rewrite Nat.sub_diag.
    + apply IH in Hin as [Hle Hl]. split; [lia|].
      replace (j - a) with (S (j - S a)) by lia. done.
Qed.

(** The names the validator returns are labels of the table. *)
Lemma valid_names_are_columns df a b q name :
  name ∈ fetch_names_of_valid_columns df a b q → column_positions name df ≠ [].
Proof.
  unfold fetch_names_of_valid_columns. intros Hin.
  apply list_elem_of_omap in Hin as ([j [nm dt]] & Hzip & Hv). simpl in Hv.
  destruct (valid_column df a b q j nm); [|done]. injection Hv as ->.
  apply zip_seq_lookup in Hzip as [_ Hj]. rewrite Nat.sub_0_r in Hj.
  assert (j ∈ column_positions name df) as Hpos.
  { unfold column_positions. apply list_elem_of_filter. split.
    - by rewrite Hj.
    - apply elem_of_seq. apply lookup_lt_Some in Hj. unfold ncols. lia. }
  intros Hnil. rewrite Hnil in Hpos. by apply elem_of_nil in Hpos.
Qed.

Lemma select_valid_columns df a b q :
  ∃ idx, select_columns df (fetch_names_of_valid_columns df a b q)
         = inr (take_columns idx df).
Proof.
  unfold select_columns.
  destruct (try_map_ok
              (λ n, match column_positions n df with
                    | [] => inl (mkExn KeyError n)
                    | ps => inr ps
                    end)
              (fetch_names_of_valid_columns df a b q)) as [pss Hpss].
  { intros name Hname. apply valid_names_are_columns in Hname.
    destruct (column_positions name df); [done|by eexists]. }
  rewrite Hpss. simpl. by eexists.
Qed.

Lemma filter_of_empty df f :
  nrows df = 0 →
  apply_row_based_filter df f true = inr df.
Proof.
  intros Hz. apply apply_row_based_filter_settled. unfold clean.
  apply nrows_zero in Hz. rewrite Hz. constructor.
Qed.

(** What each stage makes of a table without rows. *)
Lemma stage_on_empty row c s df w :
  nrows df = 0 →
  if blocks_empty c s
  then ∃ w', stage_fn row c s df w = (Return row, w') ∧ files w' = files w
  else ∃ df' w', stage_fn row c s df w = (Normal df', w')
                 ∧ nrows df' = 0 ∧ files w' = files w.
Proof.
  intros Hz. destruct s; unfold blocks_empty; simpl.
  - unfold column_validation_stage. destruct (drop_invalid_cols c); simpl; [|by eexists _, _].
    destruct (select_valid_columns df (max_header_len_chars c)
                (min_unique_column_values c) (max_null_like_frac c)) as [idx Hsel].
    unfold bind, lift. rewrite Hsel. eexists _, _. split; [done|].
    by rewrite take_columns_nrows.
  - unfold column_reduction_stage. destruct (drop_extra_cols c); simpl; [|by eexists _, _].
    eexists _, _. split; [done|]. split; [|done].
    unfold sample_columns_if_needed. case_bool_decide; [|done].
    by rewrite take_columns_nrows.
  - unfold value_length_stage.
    destruct (max_value_len_chars c) as [[|n]|]; simpl; try (by eexists _, _).
    unfold bind, lift. rewrite filter_of_empty by done.
    unfold ret, mark. rewrite bool_decide_eq_true_2 by done. by eexists.
  - unfold substring_stage.
    destruct (filter_rows_containing_substrings c); simpl; [by eexists _, _|].
    unfold bind, lift. rewrite filter_of_empty by done.
    unfold ret, mark. rewrite bool_decide_eq_true_2 by done. by eexists.
  - unfold code_stage.
    destruct (filter_rows_containing_code c); simpl; [|by eexists _, _].
    unfold bind, lift. rewrite filter_of_empty by done.
    unfold ret, mark. rewrite bool_decide_eq_true_2 by done. by eexists.
  - unfold pii_stage.
    destruct (filter_rows_containing_pii c); simpl; [|by eexists _, _].
    unfold bind, lift. rewrite filter_of_empty by done.
    unfold ret, mark. rewrite bool_decide_eq_true_2 by done. by eexists.
  - unfold deduplication_stage.
    destruct (drop_duplicate_rows c); simpl; [|by eexists _, _].
    eexists _, _. split; [done|]. split; [|done].
    unfold drop_duplicates, df_empty.
    by rewrite (bool_decide_eq_true_2 (nrows df = 0)).
  - unfold min_rows_stage. destruct (min_rows c) as [[|m]|]; simpl; [| |by eexists _, _].
    + by eexists _, _.
    + unfold bind, mark. rewrite bool_decide_eq_true_2 by lia. by eexists.
  - unfold row_reduction_stage. destruct (drop_extra_rows c); simpl; [|by eexists _, _].
    rewrite bool_decide_eq_false_2 by lia. by eexists _, _.
Qed.

Lemma run_stages_on_empty row c sts k df w :
  nrows df = 0 →
  if existsb (blocks_empty c) sts
  then ∃ w', run_stages (stage_fn row c <$> sts) k df w = (Return row, w')
             ∧ files w' = files w
  else ∃ df' w1, run_stages (stage_fn row c <$> sts) k df w = k df' w1
                 ∧ nrows df' = 0 ∧ files w1 = files w.
Proof.
  revert df w. induction sts as [|s sts IH]; intros df w Hz.
  { simpl. by exists df, w. }
  rewrite fmap_cons. cbn [run_stages existsb]. unfold bind.
  pose proof (stage_on_empty row c s df w Hz) as Hs.
  destruct (blocks_empty c s); simpl.
  - destruct Hs as (w' & -> & Hf). by exists w'.
  - destruct Hs as (df1 & w1 & -> & Hz1 & Hf1).
    specialize (IH df1 w1 Hz1).
    destruct (existsb (blocks_empty c) sts).
    + destruct IH as (w' & -> & Hf). exists w'. split; [done|congruence].
    + destruct IH as (df' & w2 & -> & Hz2 & Hf2).
      exists df', w2. split; [done|]. split; [done|congruence].
Qed.

(** X15: what a call that returns has done with a table without rows
    (format "csv"): nothing is written as soon as a row filter is enabled
    or a minimum of at least one row is set, and otherwise a table without
    rows is written. *)
Theorem empty_table_outcome row root_dir c w r w' df content_hash :
  write_dataframe_to_file row root_dir "csv" c w = (Return r, w') →
  table_of row = inr df →
  row !! "content_hash" = Some content_hash →
  nrows df = 0 →
  if existsb (blocks_empty c) pipeline
  then files w' = files w
  else ∃ T, nrows T = 0
            ∧ files w'
              = <[os_path_join (abspath root_dir)
                    (str content_hash +:+ "__" +:+ default "" (head (uuids w))
                     +:+ "." +:+ "csv")
                  := mkFile "csv" false T]> (files w).
Proof.
  intros Hret Ht Hh Hz. rewrite write_dataframe_to_file_eq, Ht, Hh in Hret.
  pose proof (run_stages_on_empty row c pipeline
                (output_stage row "csv"
                   (output_path content_hash (default "" (head (uuids w)))
                      root_dir "csv"))
                df (after_prelude root_dir w) Hz) as Hrun.
  destruct (existsb (blocks_empty c) pipeline).
  - destruct Hrun as (w1 & Hrun & Hf). rewrite Hrun in Hret. by simplify_eq.
  - destruct Hrun as (df' & w1 & Hrun & Hz' & Hf). rewrite Hrun in Hret.
    apply output_stage_inv in Hret
      as (_ & _ & [(_ & _ & Hf')|[(_ & ? & _)|(e & lf & ? & _)]] & _); try done.
    exists df'. split; [done|]. by rewrite Hf', Hf.
Qed.

(** *** What the log tells *)

(** X16: a rejection leaves exactly one warning, which names its cause
    (the filter that emptied the table, or the row count under the
    minimum), except the sampling down to zero rows, which is silent. *)
Theorem rejection_is_logged row root_dir fmt c w o w' evs ev :
  write_dataframe_to_file row root_dir fmt c w = (o, w') →
  trace w' = trace w ++ evs →
  ev ∈ evs → rejects c ev = true →
  log w' = log w ++ rejection_log ev
  ∧ (ev_stage ev = RowReduction → log w' = log w).
Proof.
  intros Hrun Htr Hin Hr.
  destruct (rejected_run _ _ _ _ _ _ _ _ _ Hrun Htr Hin Hr) as (-> & Hlast & _).
  assert (log w' = log w ++ rejection_log ev) as Hlog.
  { rewrite write_dataframe_to_file_eq in Hrun.
    destruct (table_of row) as [e|df]; [done|].
    destruct (row !! "content_hash") as [h|]; [|done].
    apply run_stages_log in Hrun
      as [(w1 & evs' & Hk & _ & Htr' & Hnr)|[(evs0 & ev0 & Htr' & Hr0 & Hl)|(e & ?)]];
      [| |done].
    - exfalso. apply output_stage_inv in Hk as (_ & Htr'' & _).
      rewrite Htr', Htr in Htr''. simpl in Htr''.
      apply app_inv_head in Htr'' as ->.
      by eapply not_rejected.
    - simpl in Htr'. rewrite Htr in Htr'. apply app_inv_head in Htr' as ->.
      rewrite last_snoc in Hlast. by simplify_eq. }
  split; [done|]. intros Hst. rewrite Hlog. unfold rejection_log.
  by rewrite Hst, app_nil_r.
Qed.


(** X18: when the task does not raise, [_write_element] adds nothing of
    its own: it returns what the task returned and leaves the world as the
    task left it, with no log line. *)
Theorem dispatcher_adds_nothing_on_success self element w o1 w1 :
  write_dataframe_to_file element (base_path self) (output_format self)
    (config self) w = (o1, w1) →
  (∀ e, o1 ≠ Raise e) →
  _write_element self element w = (Return element, w1).
Proof.
  intros Hrun Hne.
  pose proof (outcome_is_return _ _ _ _ _ _ _ Hrun Hne) as ->.
  unfold _write_element, try_except, bind, call. by rewrite Hrun.
Qed.

(** X19: a record that lacks a key makes the call raise before any
    stage runs, with nothing written or logged; and the keys are read in
    the order of the source: when what is raised is a [KeyError], it is
    for ["arrow_bytes"] if the record has neither ["df"] nor
    ["arrow_bytes"] (also when the content hash is missing as well), and
    for ["content_hash"] if the record has a ["df"], whatever object that
    is, and no content hash. *)
Theorem missing_keys_raise_before_any_stage row root_dir fmt c w :
  (row !! "df" = None → row !! "arrow_bytes" = None →
   ∃ e w', write_dataframe_to_file row root_dir fmt c w = (Raise e, w')
           ∧ (exn_cls e = KeyError → exn_msg e = "'arrow_bytes'")
           ∧ files w' = files w ∧ log w' = log w ∧ trace w' = trace w)
  ∧ (∀ o, row !! "df" = Some o → row !! "content_hash" = None →
     ∃ e w', write_dataframe_to_file row root_dir fmt c w = (Raise e, w')
             ∧ (exn_cls e = KeyError → exn_msg e = "'content_hash'")
             ∧ files w' = files w ∧ log w' = log w ∧ trace w' = trace w).
Proof.
  split.
  - intros Hdf Hab. rewrite write_dataframe_to_file_eq.
    unfold table_of, first_error. rewrite Hdf, Hab.
    eexists _, _. split; [reflexivity|]. by split_and!.
  - intros o Hdf Hh. rewrite write_dataframe_to_file_eq.
    unfold first_error. rewrite Hdf, Hh.
    destruct (table_of row); eexists _, _; (split; [reflexivity|]); by split_and!.
Qed.

End Properties.

(** * The theorems on concrete runs *)

Lemma failure_containment_witness :
  (_write_element (H := demo_externals) (demo_sink "csv" config_off)
     encoded_record demo_world).1 = Return encoded_record
  ∧ (write (H := demo_externals) (demo_sink "csv" config_off)
       [encoded_record; record_of "abc" letters] demo_world).1
    = Normal [encoded_record; record_of "abc" letters].
Proof.
  destruct (failure_containment (H := demo_externals)
              (demo_sink "csv" config_off) demo_world) as [Helement Hbatch].
  split.
  - destruct (Helement encoded_record (PyStr "e3b0")) as (w' & Hw & _).
    + vm_compute. reflexivity.
    + rewrite Hw. reflexivity.
  - destruct (Hbatch [encoded_record; record_of "abc" letters]) as (w' & Hw).
    + repeat constructor; eexists; vm_compute; reflexivity.
    + rewrite Hw. reflexivity.
Defined.

Lemma decode_failure_is_raised_then_contained_witness :
  (∃ e w1,
     write_dataframe_to_file (H := demo_externals) encoded_record "out" "csv"
       config_off demo_world = (Raise e, w1)
     ∧ exn_cls e = ArrowInvalid ∧ files w1 = files demo_world
     ∧ trace w1 = trace demo_world)
  ∧ ∃ w', _write_element (H := demo_externals) (demo_sink "csv" config_off)
            encoded_record demo_world = (Return encoded_record, w')
          ∧ files w' = files demo_world.
Proof.
  destruct (decode_failure_is_raised_then_contained (H := demo_externals)
              (demo_sink "csv" config_off) encoded_record demo_world [])
    as [Hraised Hcaught].
  - vm_compute. reflexivity.
  - vm_compute. reflexivity.
  - vm_compute. reflexivity.
  - split; [exact Hraised|].
    destruct (Hcaught (PyStr "e3b0")) as (w' & Hw & Hf & _).
    + vm_compute. reflexivity.
    + exists w'. split; [exact Hw|exact Hf].
Defined.

(** C2, as stated, fails: the record has no ["df"] and its bytes do not
    decode, yet the dispatcher's call returns the record and the batch
    completes; nothing reaches the batch caller. *)
Lemma decode_failure_propagates_counterexample :
  encoded_record !! "df" = None
  ∧ table_of (H := demo_externals) encoded_record
    = inl (mkExn ArrowInvalid "could not read arrow bytes")
  ∧ (_write_element (H := demo_externals) (demo_sink "csv" config_off)
       encoded_record demo_world).1 = Return encoded_record
  ∧ (write (H := demo_externals) (demo_sink "csv" config_off)
       [encoded_record] demo_world).1 = Normal [encoded_record].
Proof.
  repeat (apply conj; [vm_compute; reflexivity|]). vm_compute. reflexivity.
Qed.

Lemma early_exit_on_empty_witness :
  stage_op (H := demo_externals) config_short_dedup ValueLengthFilter long_words
    (mkDF (df_columns long_words) [])
  ∧ emptied_run.1 = Return (record_of "abc" long_words)
  ∧ last (trace emptied_run.2)
    = Some (mkEvent ValueLengthFilter long_words (mkDF (df_columns long_words) []))
  ∧ files emptied_run.2 = files demo_world.
Proof.
  apply (early_exit_on_empty (H := demo_externals) (record_of "abc" long_words)
           "out" "csv" config_short_dedup demo_world emptied_run.1 emptied_run.2
           (trace emptied_run.2)
           (mkEvent ValueLengthFilter long_words (mkDF (df_columns long_words) []))).
  - vm_compute. reflexivity.
  - vm_compute. reflexivity.
  - vm_compute. constructor.
  - reflexivity.
  - reflexivity.
Defined.

(** C4, as stated, fails: deduplication is enabled, yet it does not run,
    because the value-length filter has emptied the table before. *)
Lemma every_enabled_stage_runs_counterexample :
  enabled config_short_dedup Deduplication = true
  ∧ ev_stage <$> trace emptied_run.2 = [ValueLengthFilter]
  ∧ Deduplication ∉ ev_stage <$> trace emptied_run.2.
Proof.
  assert (ev_stage <$> trace emptied_run.2 = [ValueLengthFilter]) as Hst.
  { vm_compute. reflexivity. }
  split; [reflexivity|]. split; [exact Hst|]. rewrite Hst.
  intros Hin. apply list_elem_of_singleton in Hin. discriminate Hin.
Qed.

Lemma stage_order_witness :
  ev_stage <$> trace mailbox_run.2
  = filter (λ s, enabled config_spam s = true) pipeline.
Proof.
  destruct (stage_order (H := demo_externals) (record_of "m41l" mailbox)
              "out" "parquet" config_spam demo_world mailbox_run.1 mailbox_run.2
              (trace mailbox_run.2)) as (_ & _ & Hall).
  - vm_compute. reflexivity.
  - vm_compute. reflexivity.
  - apply Hall.
    + vm_compute. intros e He. discriminate He.
    + vm_compute. repeat constructor.
Defined.

Lemma min_rows_rejects_witness :
  one_letter = one_letter
  ∧ second_run.1 = Return (record_of "abc" one_letter)
  ∧ last [mkEvent MinRowCheck one_letter one_letter]
    = Some (mkEvent MinRowCheck one_letter one_letter)
  ∧ files second_run.2 = files sampled_run.2.
Proof.
  apply (min_rows_rejects (H := demo_externals) (record_of "abc" one_letter)
           "out" "csv" config_min2_max1 sampled_run.2 second_run.1 second_run.2
           [mkEvent MinRowCheck one_letter one_letter]
           (mkEvent MinRowCheck one_letter one_letter) 2).
  - vm_compute. reflexivity.
  - vm_compute. reflexivity.
  - reflexivity.
  - constructor.
  - reflexivity.
  - vm_compute. lia.
Defined.

Lemma substring_filter_sound_witness :
  ∃ df' o w',
    substring_stage (record_of "m41l" mailbox) config_spam
      mailbox demo_world = (o, w')
    ∧ o = Normal df'
    ∧ [VOpaque (mkExn TypeError "no text"); VStr "plain"; VStr "spam"] ∈ df_rows df'
    ∧ [VStr "buy spam"; VStr "now"; VInt 4] ∉ df_rows df'.
Proof.
  destruct (substring_filter_sound (record_of "m41l" mailbox)
              config_spam mailbox demo_world)
    as (df' & o & w' & Hrun & _ & Ho & _ & _ & Hclean & Hkept).
  - vm_compute. discriminate.
  - exists df', o, w'. split; [exact Hrun|].
    assert ([VOpaque (mkExn TypeError "no text"); VStr "plain"; VStr "spam"]
            ∈ df_rows df') as Hin.
    { apply Hkept.
      - vm_compute. do 4 constructor.
      - vm_compute. intros v s substr Hv Hs Hsub.
        apply elem_of_cons in Hv as [->|Hv]; [discriminate Hs|].
        apply list_elem_of_singleton in Hv as ->. injection Hs as <-.
        intros Hc. apply contains_spec in Hc.
        apply elem_of_cons in Hsub as [->|Hsub]; [discriminate Hc|].
        apply list_elem_of_singleton in Hsub as ->. discriminate Hc. }
    split; [|split; [exact Hin|]].
    + destruct Ho as [Ho|[_ Hz]]; [exact Ho|].
      unfold nrows in Hz. destruct (df_rows df'); [|discriminate Hz].
      by apply elem_of_nil in Hin.
    + intros Hbad.
      apply (Hclean _ (VStr "buy spam") "buy spam" "spam" Hbad).
      * vm_compute. constructor.
      * reflexivity.
      * vm_compute. constructor.
      * by exists "buy ", "".
Defined.

Lemma row_reduction_exact_witness :
  nrows one_letter = max_output_rows config_min2_max1
  ∧ df_rows one_letter ⊆+ df_rows letters
  ∧ ∃ path, files sampled_run.2 = <[path := mkFile "csv" false one_letter]> ∅.
Proof.
  destruct (row_reduction_exact (H := demo_externals) (record_of "abc" letters)
              "out" "csv" config_min2_max1 demo_world sampled_run.1 sampled_run.2
              (trace sampled_run.2) (mkEvent RowReduction letters one_letter))
    as (_ & Hsampled & _ & _ & Hwritten).
  - vm_compute. reflexivity.
  - vm_compute. reflexivity.
  - vm_compute. do 2 constructor.
  - reflexivity.
  - destruct Hsampled as (Hn & Hsub & _); [vm_compute; lia|].
    split; [exact Hn|]. split; [exact Hsub|].
    apply Hwritten.
    + vm_compute. reflexivity.
    + left. reflexivity.
    + right. vm_compute. discriminate.
Defined.

(** C8, as stated, fails: the pipeline writes [one_letter] (3 rows pass
    the minimum of 2 and are sampled down to 1); run on [one_letter] with
    the same configuration, it rejects it for having fewer than 2 rows and
    writes nothing. *)
Lemma rerun_rejects_counterexample :
  table_of (H := demo_externals) (record_of "abc" letters) = inr letters
  ∧ files sampled_run.2 !! "/data/out/abc__6f1c.csv"
    = Some (mkFile "csv" false one_letter)
  ∧ second_run.1 = Return (record_of "abc" one_letter)
  ∧ files second_run.2 = files sampled_run.2
  ∧ last (trace second_run.2) = Some (mkEvent MinRowCheck one_letter one_letter)
  ∧ rejects config_min2_max1 (mkEvent MinRowCheck one_letter one_letter) = true.
Proof.
  repeat (apply conj; [vm_compute; reflexivity|]). vm_compute. reflexivity.
Qed.

(** The other way a second run changes the table: the column that was
    valid on two rows has one distinct value once the "spam" row is gone,
    and column validation drops it. *)
Example rerun_drops_column :
  files validated_run.2 !! "/data/out/abc__6f1c.csv"
  = Some (mkFile "csv" false one_subject)
  ∧ files revalidated_run.2 !! "/data/out/abc__6f1d.csv"
    = Some (mkFile "csv" false (mkDF [] [[]])).
Proof. split; vm_compute; reflexivity. Qed.

Lemma rerun_keeps_output_witness :
  let T := last_table mailbox (trace mailbox_run.2) in
  ∃ w2',
    write_dataframe_to_file (H := demo_externals) (record_of "m41l" T)
      "out" "parquet" config_spam mailbox_run.2 = (Return (record_of "m41l" T), w2')
    ∧ files w2' = <["/data/out/m41l__6f1d.parquet" := mkFile "parquet" false T]>
                    (files mailbox_run.2).
Proof.
  intros T.
  destruct (rerun_keeps_output (H := demo_externals) (record_of "m41l" mailbox)
              (record_of "m41l" T) "out" "parquet" config_spam demo_world
              (record_of "m41l" mailbox) mailbox_run.2 (trace mailbox_run.2) mailbox T
              mailbox_run.2 (PyStr "m41l"))
    as (w2' & Hrun & _ & Hfiles).
  - vm_compute. reflexivity.
  - vm_compute. reflexivity.
  - vm_compute. repeat constructor.
  - vm_compute. reflexivity.
  - reflexivity.
  - right. reflexivity.
  - vm_compute. reflexivity.
  - vm_compute. reflexivity.
  - vm_compute. discriminate.
  - vm_compute. intros m Hm. injection Hm as <-. lia.
  - exists w2'. split; [exact Hrun|exact Hfiles].
Defined.



Lemma returns_input_record_witness :
  plain_run.1 = Return (record_of "abc" letters)
  ∧ ∀ r, plain_run.1 = Return r → ∀ key, r !! key = record_of "abc" letters !! key.
Proof.
  apply (returns_input_record (H := demo_externals) (record_of "abc" letters)
           "out" "csv" config_off demo_world plain_run.1 plain_run.2).
  - vm_compute. reflexivity.
  - vm_compute. intros e He. discriminate He.
Defined.

(** * The further theorems on concrete runs *)

Lemma missing_content_hash_escapes_witness :
  ∃ w', _write_element (H := demo_externals) (demo_sink "csv" config_off)
          nameless_record demo_world
        = (Raise (mkExn KeyError "'content_hash'"), w')
        ∧ files w' = files demo_world ∧ log w' = log demo_world.
Proof.
  apply (missing_content_hash_escapes (H := demo_externals)
           (demo_sink "csv" config_off) nameless_record demo_world).
  vm_compute. reflexivity.
Defined.

Lemma directory_created_also_when_rejected_witness :
  "/data/out" ∈ dirs emptied_run.2
  ∧ dirs demo_world ⊆ dirs emptied_run.2
  ∧ uuids emptied_run.2 = tail (uuids demo_world).
Proof.
  apply (directory_created_also_when_rejected (H := demo_externals)
           (record_of "abc" long_words) "out" "csv" config_short_dedup demo_world
           (record_of "abc" long_words) emptied_run.2).
  vm_compute. reflexivity.
Defined.


Lemma survivor_logs_the_write_witness :
  log json_run.2
  = ["[DEBUG] writing dataframe of shape (3, 1) to /data/out/abc__6f1c.json"]
  ∧ files json_run.2 = files demo_world.
Proof.
  destruct (survivor_logs_the_write (H := demo_externals)
              (record_of "abc" letters) "out" "json" config_off demo_world
              (record_of "abc" letters) json_run.2 [])
    as (h & df & Hh & Ht & Hlog & Hfiles).
  - vm_compute. reflexivity.
  - vm_compute. reflexivity.
  - constructor.
  - split.
    + vm_compute. reflexivity.
    + apply Hfiles; discriminate.
Defined.

Lemma written_table_bounds_witness :
  let T := last_table mailbox (trace mailbox_run.2) in
  nrows T ≤ nrows mailbox
  ∧ df_columns T ⊆ df_columns mailbox
  ∧ (drop_extra_rows config_spam = true → nrows T ≤ max_output_rows config_spam)
  ∧ (drop_extra_cols config_spam = true → ncols T ≤ max_cols config_spam).
Proof.
  apply (written_table_bounds (H := demo_externals) (record_of "m41l" mailbox)
           "out" "parquet" config_spam demo_world (record_of "m41l" mailbox)
           mailbox_run.2 (trace mailbox_run.2) mailbox).
  - vm_compute. reflexivity.
  - vm_compute. reflexivity.
  - vm_compute. repeat constructor.
  - vm_compute. reflexivity.
Defined.

Lemma written_rows_distinct_witness :
  let T := last_table mailbox (trace mailbox_run.2) in
  ncols T = 0 ∨ NoDup (df_rows T).
Proof.
  apply (written_rows_distinct (H := demo_externals) (record_of "m41l" mailbox)
           "out" "parquet" config_spam demo_world (record_of "m41l" mailbox)
           mailbox_run.2 (trace mailbox_run.2) mailbox).
  - vm_compute. reflexivity.
  - vm_compute. reflexivity.
  - vm_compute. repeat constructor.
  - vm_compute. reflexivity.
  - reflexivity.
Defined.

Lemma written_table_passes_detectors_witness :
  let T := last_table mailbox (trace mailbox_run.2) in
  nrows T ≠ 0
  ∧ ∀ row_ v, row_ ∈ df_rows T → v ∈ filter_cells (df_columns T) true row_ →
              contains_code (Externals := demo_externals) v = false.
Proof.
  destruct (written_table_passes_detectors (H := demo_externals)
              (record_of "m41l" mailbox) "out" "parquet" config_spam demo_world
              (record_of "m41l" mailbox) mailbox_run.2 (trace mailbox_run.2)
              mailbox) as [Hcode _].
  - vm_compute. reflexivity.
  - vm_compute. reflexivity.
  - vm_compute. repeat constructor.
  - vm_compute. reflexivity.
  - apply Hcode. reflexivity.
Defined.

Lemma written_values_within_length_witness :
  [VStr "naïve"] ∈ df_rows (last_table accented (trace accented_run.2))
  ∧ py_len "naïve" ≤ 5.
Proof.
  assert ([VStr "naïve"] ∈ df_rows (last_table accented (trace accented_run.2)))
    as Hrow by (vm_compute; constructor).
  split; [exact Hrow|].
  apply (written_values_within_length (H := demo_externals)
           (record_of "abc" accented) "out" "csv" config_len5 demo_world
           (record_of "abc" accented) accented_run.2 (trace accented_run.2)
           accented 4 eq_refl eq_refl) with (v := VStr "naïve")
           (row_ := [VStr "naïve"]).
  - vm_compute. repeat constructor.
  - vm_compute. reflexivity.
  - reflexivity.
  - exact Hrow.
  - vm_compute. constructor.
  - reflexivity.
Defined.

Lemma written_table_without_substrings_witness :
  let T := last_table mailbox (trace mailbox_run.2) in
  nrows T ≠ 0
  ∧ ∀ row_ v s substr,
      row_ ∈ df_rows T → v ∈ filter_cells (df_columns T) true row_ →
      py_str v = inr s →
      substr ∈ filter_rows_containing_substrings config_spam →
      ¬ ∃ pre post, s = pre +:+ substr +:+ post.
Proof.
  apply (written_table_without_substrings (H := demo_externals)
           (record_of "m41l" mailbox) "out" "parquet" config_spam demo_world
           (record_of "m41l" mailbox) mailbox_run.2 (trace mailbox_run.2) mailbox).
  - vm_compute. reflexivity.
  - vm_compute. reflexivity.
  - vm_compute. repeat constructor.
  - vm_compute. reflexivity.
  - vm_compute. discriminate.
Defined.

Lemma written_min_rows_or_sampled_witness :
  2 ≤ nrows (last_table letters (trace sampled_run.2))
  ∨ (drop_extra_rows config_min2_max1 = true
     ∧ nrows (last_table letters (trace sampled_run.2))
       = max_output_rows config_min2_max1
     ∧ max_output_rows config_min2_max1 < 2).
Proof.
  apply (written_min_rows_or_sampled (H := demo_externals)
           (record_of "abc" letters) "out" "csv" config_min2_max1 demo_world
           (record_of "abc" letters) sampled_run.2 (trace sampled_run.2)
           letters 2).
  - vm_compute. reflexivity.
  - vm_compute. reflexivity.
  - vm_compute. repeat constructor.
  - vm_compute. reflexivity.
  - reflexivity.
Defined.

Lemma output_file_location_witness :
  files slash_run.2 !! "/tmp/abc__6f1c.csv" = Some (mkFile "csv" false letters)
  ∧ "/tmp/abc__6f1c.csv" = "/tmp/abc" +:+ "__" +:+ "6f1c" +:+ "." +:+ "csv".
Proof.
  destruct (output_file_location (H := demo_externals)
              (record_of "/tmp/abc" letters) "out" "csv" config_off demo_world
              slash_run.1 slash_run.2 "/tmp/abc__6f1c.csv" (PyStr "/tmp/abc"))
    as [_ Habs].
  - vm_compute. reflexivity.
  - vm_compute. discriminate.
  - vm_compute. reflexivity.
  - split; [vm_compute; reflexivity|]. apply Habs. reflexivity.
Defined.

Lemma different_tokens_different_files_witness :
  "/data/out/abc__6f1c.csv" ≠ "/data/out/abc__6f1d.csv"
  ∧ files revalidated_run.2 !! "/data/out/abc__6f1c.csv"
    = files validated_run.2 !! "/data/out/abc__6f1c.csv".
Proof.
  apply (different_tokens_different_files (H := demo_externals)
           (record_of "abc" two_subjects) (record_of "abc" one_subject)
           "out" "csv" config_unique2_spam config_unique2_spam
           demo_world validated_run.1 validated_run.2
           validated_run.2 revalidated_run.1 revalidated_run.2
           "/data/out/abc__6f1c.csv" "/data/out/abc__6f1d.csv" (PyStr "abc")).
  - vm_compute. reflexivity.
  - vm_compute. reflexivity.
  - vm_compute. reflexivity.
  - vm_compute. reflexivity.
  - vm_compute. discriminate.
  - vm_compute. discriminate.
  - vm_compute. discriminate.
Defined.

Lemma empty_table_outcome_witness :
  ∃ T, nrows T = 0
       ∧ files empty_run.2
         = <["/data/out/abc__6f1c.csv" := mkFile "csv" false T]> ∅.
Proof.
  apply (empty_table_outcome (H := demo_externals) (record_of "abc" no_rows)
           "out" config_off demo_world (record_of "abc" no_rows) empty_run.2
           no_rows (PyStr "abc")).
  - vm_compute. reflexivity.
  - vm_compute. reflexivity.
  - vm_compute. reflexivity.
  - reflexivity.
Defined.

Lemma rejection_is_logged_witness :
  log emptied_run.2
  = ["dataframe is empty after applying config.max_value_len_chars"].
Proof.
  destruct (rejection_is_logged (H := demo_externals) (record_of "abc" long_words)
              "out" "csv" config_short_dedup demo_world emptied_run.1
              emptied_run.2 (trace emptied_run.2)
              (mkEvent ValueLengthFilter long_words
                 (mkDF (df_columns long_words) []))) as [Hlog _].
  - vm_compute. reflexivity.
  - vm_compute. reflexivity.
  - vm_compute. constructor.
  - reflexivity.
  - exact Hlog.
Defined.


Lemma dispatcher_adds_nothing_on_success_witness :
  _write_element (H := demo_externals) (demo_sink "csv" config_off)
    (record_of "abc" letters) demo_world
  = (Return (record_of "abc" letters), plain_run.2).
Proof.
  apply (dispatcher_adds_nothing_on_success (H := demo_externals)
           (demo_sink "csv" config_off) (record_of "abc" letters) demo_world
           plain_run.1 plain_run.2).
  - vm_compute. reflexivity.
  - vm_compute. intros e He. discriminate He.
Defined.

Lemma missing_keys_raise_before_any_stage_witness :
  (∃ e w', write_dataframe_to_file (H := demo_externals) ∅ "out" "csv"
             config_off demo_world = (Raise e, w')
           ∧ (exn_cls e = KeyError → exn_msg e = "'arrow_bytes'")
           ∧ files w' = files demo_world ∧ log w' = log demo_world
           ∧ trace w' = trace demo_world)
  ∧ (∃ e w', write_dataframe_to_file (H := demo_externals) odd_record "out" "csv"
               config_off demo_world = (Raise e, w')
             ∧ (exn_cls e = KeyError → exn_msg e = "'content_hash'")
             ∧ files w' = files demo_world ∧ log w' = log demo_world
             ∧ trace w' = trace demo_world).
Proof.
  split.
  - apply (missing_keys_raise_before_any_stage (H := demo_externals) ∅ "out" "csv"
             config_off demo_world); vm_compute; reflexivity.
  - apply (proj2 (missing_keys_raise_before_any_stage (H := demo_externals)
                    odd_record "out" "csv" config_off demo_world)
             (PyStr "not a table")); vm_compute; reflexivity.
Defined.
